(** * Thorium DAQ: the sweep controller of [thorium.py], embedded and verified

    The development follows the source file top to bottom:
    - [Py]: the few Python built-ins the program relies on ([str.split],
      [str.strip], [in] on strings, [re.sub('[^0-9]', '', _)], [int],
      [str] of an integer, list item assignment with negative indices);
    - [FloatOps]: the interface of the built-in [float] type (parsing,
      multiplication by an integer, printing), which the program only uses
      through these three operations, and [Binary64], its IEEE-754 binary64
      implementation on Rocq's primitive floats;
    - [Parser]: [DaqRunner.convert_to_vector];
    - [Writer]: the text that [DaqRunner.dump_data] writes;
    - [Daq]: the state machine run by [DaqRunner.__init__], with
      [get_timebase], [get_events] and [dump_data], over an explicit state
      (event log, timebase, file system, device command trace) and an
      environment that answers the device queries and posts the stop signal;
    - [Demo]: a small run on binary64 that the examples evaluate;
    - [View] and [Run]: the vocabulary of the invariants of the parser and
      of the command traces of the controller;
    - [Ui]: the console monitor [ui_handler];
    - [Main]: the voltage list that [__main__] reads from the configuration
      and its call of the monitor;
    - [Cases]: further example data.

    The properties follow the definitions, in the same order. Strings are
    strings of characters below U+0100, which covers the ASCII text the
    devices and the console exchange with the program; the built-ins that
    depend on the character set ([str.strip], [str.lower], [float]) are given
    on that range. [print] calls are left out: nothing in the program reads
    standard output. *)

From Stdlib Require Import ZArith String Ascii List Lia DecimalString.
From Stdlib Require Import QArith Qround.
From Stdlib Require Import Floats.PrimFloat Floats.FloatOps Floats.SpecFloat Uint63.
From stdpp Require Import base option list gmap strings.

Local Open Scope string_scope.
Local Open Scope list_scope.
Local Open Scope Z_scope.

(** ** Python built-ins *)

Module Py.

(** Exceptions the modelled code can raise. *)
Inductive Exn : Type :=
| IndexError
| ValueError
| AttributeError.

(** A Python computation that returns or raises. *)
Inductive Res (A : Type) : Type :=
| Ok (a : A)
| Raise (e : Exn).
Arguments Ok {A} a.
Arguments Raise {A} e.

Definition bind {A B : Type} (k : A -> Res B) (r : Res A) : Res B :=
  match r with
  | Ok a => k a
  | Raise e => Raise e
  end.

#[global] Instance res_ret : MRet Res := @Ok.
#[global] Instance res_bind : MBind Res := @bind.

(** [for x in l: st = body(st, x)], stopping at the first exception. *)
Fixpoint for_each {A S : Type} (body : S -> A -> Res S) (l : list A) (st : S)
  : Res S :=
  match l with
  | [] => Ok st
  | x :: l' => st' ← body st x; for_each body l' st'
  end.

(** [s.split(c)] for a one-character separator [c]: never empty, and
    adjacent separators give empty fields. *)
Fixpoint split (c : ascii) (s : string) : list string :=
  match s with
  | EmptyString => [EmptyString]
  | String a s' =>
      if Ascii.eqb a c then EmptyString :: split c s'
      else match split c s' with
           | [] => [String a EmptyString]
           | w :: ws => String a w :: ws
           end
  end.

(** [enumerate(l)]. *)
Definition enumerate {A : Type} (l : list A) : list (nat * A) :=
  imap (fun i x => (i, x)) l.

(** [pat in s] on strings. *)
Fixpoint contains (pat s : string) : bool :=
  String.prefix pat s ||
  match s with
  | EmptyString => false
  | String _ s' => contains pat s'
  end.

Definition is_digit (a : ascii) : bool :=
  let n := nat_of_ascii a in (48 <=? n)%nat && (n <=? 57)%nat.

(** Characters [str.strip()] removes, which are those of [str.isspace]:
    below U+0100 they are tab, line feed, vertical tab, form feed, carriage
    return, the four separators 0x1c-0x1f, the space, the next-line control
    U+0085 and the no-break space U+00A0. *)
Definition is_space (a : ascii) : bool :=
  let n := nat_of_ascii a in
  ((9 <=? n)%nat && (n <=? 13)%nat) || ((28 <=? n)%nat && (n <=? 32)%nat)
  || (n =? 133)%nat || (n =? 160)%nat.

Fixpoint filter_chars (keep : ascii -> bool) (s : string) : string :=
  match s with
  | EmptyString => EmptyString
  | String a s' =>
      if keep a then String a (filter_chars keep s') else filter_chars keep s'
  end.

(** [re.sub('[^0-9]', '', s)]. *)
Definition sub_non_digits (s : string) : string := filter_chars is_digit s.

Fixpoint lstrip (s : string) : string :=
  match s with
  | EmptyString => EmptyString
  | String a s' => if is_space a then lstrip s' else s
  end.

Fixpoint rstrip (s : string) : string :=
  match s with
  | EmptyString => EmptyString
  | String a s' =>
      match rstrip s' with
      | EmptyString => if is_space a then EmptyString else String a EmptyString
      | r => String a r
      end
  end.

(** [s.strip()]. *)
Definition strip (s : string) : string := rstrip (lstrip s).

Fixpoint digits_value (acc : Z) (s : string) : Z :=
  match s with
  | EmptyString => acc
  | String a s' => digits_value (10 * acc + (Z.of_nat (nat_of_ascii a) - 48)) s'
  end.

(** [int(s)] on a string of ASCII digits (all that [sub_non_digits]
    leaves): the empty string is a [ValueError], and so is, in CPython 3.11
    and later, a string of more than 4300 digits. *)
Definition int_of_digits (s : string) : Res Z :=
  match s with
  | EmptyString => Raise ValueError
  | _ =>
      if (4300 <? String.length s)%nat then Raise ValueError
      else Ok (digits_value 0 s)
  end.

(** [str(n)] for an integer. *)
Definition str_int (z : Z) : string := NilZero.string_of_int (Z.to_int z).

(** [l[i] = x]: a negative index counts from the end, and an index
    outside [-len(l), len(l))] is an [IndexError]. *)
Definition setitem {A : Type} (l : list A) (i : Z) (x : A) : Res (list A) :=
  let n := Z.of_nat (length l) in
  if (0 <=? i) && (i <? n) then Ok (<[Z.to_nat i := x]> l)
  else if (- n <=? i) && (i <? 0) then Ok (<[Z.to_nat (n + i) := x]> l)
  else Raise IndexError.

(** [l[i]] for a non-negative index. *)
Definition getitem {A : Type} (l : list A) (i : nat) : Res A :=
  match l !! i with
  | Some x => Ok x
  | None => Raise IndexError
  end.

End Py.

(** ** The float interface *)

(** What the program asks of Python's [float]: [float(s)] on a string
    ([None] for the [ValueError] of a non-numeric string), the product
    [f * n] with an integer, and [str(f)]. *)
Class FloatOps (F : Type) : Type := {
  float_of_str : string -> option F;
  float_mul_int : F -> Z -> F;
  str_float : F -> string
}.

(** ** Python's [float] on IEEE-754 binary64

    [float(s)] follows the grammar of the language reference (sign,
    [inf]/[infinity]/[nan] in any case, digits with single underscores
    between them, fraction, exponent) and rounds the decimal to the nearest
    binary64 number, ties to even; [repr] gives the shortest decimal that
    reads back as the same number (the nearest such decimal, and of two
    equally near the one with the even last digit), laid out as CPython does.
    Both are computed with exact rationals. *)

Module Binary64.
Import Py.

Definition pow2 (e : Z) : Q := Qpower (2 # 1) e.
Definition pow10 (e : Z) : Q := Qpower (10 # 1) e.
Definition Qltb (x y : Q) : bool :=
  match Qcompare x y with Lt => true | _ => false end.

(** The binary64 number nearest to the rational [x > 0], ties to even. *)
Definition round_pos (x : Q) : float :=
  let e0 := Z.log2 (Qnum x) - Z.log2 (Zpos (Qden x)) in
  let e := if Qle_bool (pow2 e0) x then e0 else e0 - 1 in
  let q := Z.max (e - 52) (-1074) in
  let y := Qmult x (pow2 (- q)) in
  let m := Qfloor y in
  let r := Qminus y (inject_Z m) in
  let m' := match Qcompare r (1 # 2) with
            | Lt => m
            | Gt => m + 1
            | Eq => if Z.even m then m else m + 1
            end in
  if 1024 <=? e then infinity
  else match m' with
       | Zpos p => SF2Prim (S754_finite false p q)
       | _ => zero
       end.

Definition digit_val (a : ascii) : Z := Z.of_nat (nat_of_ascii a) - 48.

(** [digitpart] of the grammar, digits with single underscores between
    them: the value read, the number of digits, the rest of the string. *)
Fixpoint digitpart_go (acc len : Z) (s : string) : Z * Z * string :=
  match s with
  | String a s' =>
      if is_digit a then digitpart_go (10 * acc + digit_val a) (len + 1) s'
      else if Ascii.eqb a "_" then
        match s' with
        | String b s'' =>
            if is_digit b then digitpart_go (10 * acc + digit_val b) (len + 1) s''
            else (acc, len, s)
        | EmptyString => (acc, len, s)
        end
      else (acc, len, s)
  | EmptyString => (acc, len, s)
  end.

Definition digitpart (s : string) : option (Z * Z * string) :=
  match s with
  | String a s' => if is_digit a then Some (digitpart_go (digit_val a) 1 s') else None
  | EmptyString => None
  end.

(** [number] of the grammar: the digits read as an integer [m] and the
    decimal exponent [e] of its last digit, then the rest of the string. *)
Definition number (s : string) : option (Z * Z * string) :=
  match digitpart s with
  | Some (i, _, rest) =>
      match rest with
      | String "." rest' =>
          match digitpart rest' with
          | Some (f, nf, rest'') => Some (i * 10 ^ nf + f, - nf, rest'')
          | None => Some (i, 0, rest')
          end
      | _ => Some (i, 0, rest)
      end
  | None =>
      match s with
      | String "." rest' =>
          match digitpart rest' with
          | Some (f, nf, rest'') => Some (f, - nf, rest'')
          | None => None
          end
      | _ => None
      end
  end.

(** The optional [exponent] of the grammar, which must end the string. *)
Definition exponent (s : string) : option Z :=
  match s with
  | EmptyString => Some 0
  | String c s' =>
      if Ascii.eqb c "e" || Ascii.eqb c "E" then
        let '(neg, s'') := match s' with
                           | String "-" t => (true, t)
                           | String "+" t => (false, t)
                           | _ => (false, s')
                           end in
        match digitpart s'' with
        | Some (e, _, EmptyString) => Some (if neg then - e else e)
        | _ => None
        end
      else None
  end.

(** [floatnumber] of the grammar. With [b] the binary logarithm of [m],
    [10 ^ (b * 1233 / 4096) <= m < 10 ^ ((b + 1) * 1234 / 4096 + 1)]: a
    decimal of at least [10^309] overflows to infinity and one below
    [10^-324] rounds to zero, without computing the power of ten. *)
Definition floatnumber (s : string) : option float :=
  match number s with
  | Some (m, e0, rest) =>
      match exponent rest with
      | Some e1 =>
          let e := e0 + e1 in
          let b := Z.log2 m in
          if m =? 0 then Some zero
          else if 309 <=? b * 1233 / 4096 + e then Some infinity
          else if (b + 1) * 1234 / 4096 + 1 + e <=? -324 then Some zero
          else Some (round_pos (Qmult (inject_Z m) (pow10 e)))
      | None => None
      end
  | None => None
  end.

Definition lower (a : ascii) : ascii :=
  let n := nat_of_ascii a in
  if (65 <=? n)%nat && (n <=? 90)%nat then ascii_of_nat (n + 32) else a.

Fixpoint lower_str (s : string) : string :=
  match s with
  | EmptyString => EmptyString
  | String a s' => String (lower a) (lower_str s')
  end.

(** [absfloatvalue] and [floatvalue] of the grammar. *)
Definition absfloatvalue (s : string) : option float :=
  let l := lower_str s in
  if String.eqb l "inf" || String.eqb l "infinity" then Some infinity
  else if String.eqb l "nan" then Some nan
  else floatnumber s.

Definition floatvalue (s : string) : option float :=
  match s with
  | String "-" s' => option_map PrimFloat.opp (absfloatvalue s')
  | String "+" s' => absfloatvalue s'
  | _ => absfloatvalue s
  end.

(** [floor (log10 x)] for a rational [x > 0]: an estimate from the binary
    logarithm, then at most [fuel] steps upwards. *)
Fixpoint log10_up (fuel : nat) (x : Q) (p : Z) : Z :=
  match fuel with
  | O => p
  | S fuel' => if Qle_bool (pow10 (p + 1)) x then log10_up fuel' x (p + 1) else p
  end.

Definition floor_log10 (x : Q) : Z :=
  let e2 := Z.log2 (Qnum x) - Z.log2 (Zpos (Qden x)) in
  log10_up 6 x (e2 * 1233 / 4096 - 2).

(** The shortest decimal [c * 10^s] that reads back as [m * 2^e], the
    nearest to it when there are several and, of two equally near, the one
    with the even last digit: [n] counts the digits tried. *)
Fixpoint shortest_go (fuel : nat) (n : Z) (x lo hi : Q) (closed : bool) (p10 : Z)
  : Z * Z :=
  let s := p10 - n + 1 in
  let c := Qfloor (Qmult x (pow10 (- s))) in
  let v1 := Qmult (inject_Z c) (pow10 s) in
  let v2 := Qmult (inject_Z (c + 1)) (pow10 s) in
  let inside v :=
    if closed then Qle_bool lo v && Qle_bool v hi else Qltb lo v && Qltb v hi in
  match fuel with
  | O => (c, s)
  | S fuel' =>
      match inside v1, inside v2 with
      | true, true =>
          match Qcompare (Qminus x v1) (Qminus v2 x) with
          | Lt => (c, s)
          | Gt => (c + 1, s)
          | Eq => if Z.even c then (c, s) else (c + 1, s)
          end
      | true, false => (c, s)
      | false, true => (c + 1, s)
      | false, false => shortest_go fuel' (n + 1) x lo hi closed p10
      end
  end.

Definition shortest (m : positive) (e : Z) : Z * Z :=
  let x := Qmult (inject_Z (Zpos m)) (pow2 e) in
  let hi := Qplus x (pow2 (e - 1)) in
  let lo := Qminus x (if (Zpos m =? 2 ^ 52) && (-1074 <? e)
                      then pow2 (e - 2) else pow2 (e - 1)) in
  shortest_go 17 1 x lo hi (Z.even (Zpos m)) (floor_log10 x).

Fixpoint strip_zeros (fuel : nat) (c s : Z) : Z * Z :=
  match fuel with
  | O => (c, s)
  | S fuel' => if (c mod 10 =? 0) && negb (c =? 0)
               then strip_zeros fuel' (c / 10) (s + 1) else (c, s)
  end.

Fixpoint zeros (n : nat) : string :=
  match n with
  | O => EmptyString
  | S n' => String "0" (zeros n')
  end.

(** CPython's layout of [repr]: digits [ds] with the decimal point after
    the first [decpt] of them. *)
Definition format_short (ds : string) (decpt : Z) : string :=
  let n := Z.of_nat (String.length ds) in
  if (decpt <=? -4) || (16 <? decpt) then
    let e := decpt - 1 in
    let mant := match ds with
                | String a EmptyString => ds
                | String a rest => String a ("." +:+ rest)
                | EmptyString => ds
                end in
    let es := str_int (Z.abs e) in
    mant +:+ "e" +:+ (if e <? 0 then "-" else "+")
         +:+ (if Z.abs e <? 10 then "0" +:+ es else es)
  else if decpt <=? 0 then "0." +:+ zeros (Z.to_nat (- decpt)) +:+ ds
  else if n <=? decpt then ds +:+ zeros (Z.to_nat (decpt - n)) +:+ ".0"
  else substring 0 (Z.to_nat decpt) ds +:+ "."
       +:+ substring (Z.to_nat decpt) (Z.to_nat (n - decpt)) ds.

(** [repr(f)], which is also [str(f)]. *)
Definition repr (f : float) : string :=
  match Prim2SF f with
  | S754_nan => "nan"
  | S754_infinity s => if s then "-inf" else "inf"
  | S754_zero s => if s then "-0.0" else "0.0"
  | S754_finite s m e =>
      let '(c, k) := shortest m e in
      let '(c', k') := strip_zeros 17 c k in
      let ds := str_int c' in
      (if s then "-" else "") +:+ format_short ds (Z.of_nat (String.length ds) + k')
  end.

(** [float(n)] for an integer [n], as in [f * n]. (Python raises
    [OverflowError] where this gives an infinity, from [2^1024] on: far
    beyond any sample index, which counts entries of a string.) *)
Definition of_int (n : Z) : float :=
  match n with
  | Z0 => zero
  | Zpos p => round_pos (inject_Z n)
  | Zneg p => PrimFloat.opp (round_pos (inject_Z (Zpos p)))
  end.

(** The white space [float(s)] skips at both ends of [s]: the characters
    of C's [isspace] (tab, line feed, vertical tab, form feed, carriage return,
    space) and the white space beyond ASCII (below U+0100: U+0085 and U+00A0).
    Unlike [str.strip], it keeps the separators 0x1c-0x1f, which then make the
    string no number. *)
Definition is_float_space (a : ascii) : bool :=
  let n := nat_of_ascii a in
  ((9 <=? n)%nat && (n <=? 13)%nat) || (n =? 32)%nat
  || (n =? 133)%nat || (n =? 160)%nat.

Fixpoint skip_left (s : string) : string :=
  match s with
  | EmptyString => EmptyString
  | String a s' => if is_float_space a then skip_left s' else s
  end.

Fixpoint skip_right (s : string) : string :=
  match s with
  | EmptyString => EmptyString
  | String a s' =>
      match skip_right s' with
      | EmptyString => if is_float_space a then EmptyString else String a EmptyString
      | r => String a r
      end
  end.

(** Python's [float] on binary64: [float(s)] skips surrounding white space,
    and [f * n] converts [n] first. *)
Definition binary64 : FloatOps float := {|
  float_of_str s := floatvalue (skip_right (skip_left s));
  float_mul_int f n := PrimFloat.mul f (of_int n);
  str_float := repr
|}.

End Binary64.

(** ** Data model *)

Section Data.
Context {F : Type}.

(** A Python number: [self.dt] is the integer [0] until [get_timebase]
    stores a float, and a sample's time is [self.dt * time_idx]. *)
Inductive Num : Type :=
| NInt (z : Z)
| NFloat (f : F).

(** One sample [(time, volt)], a channel's waveform, and the four channel
    slots of an event ([None] is an absent channel). *)
Definition Sample : Type := Num * F.
Definition Waveform : Type := list Sample.
Definition Event : Type := list (option Waveform).

End Data.
Arguments Num F : clear implicits.
Arguments Sample F : clear implicits.
Arguments Waveform F : clear implicits.
Arguments Event F : clear implicits.

(** ** The waveform parser: [DaqRunner.convert_to_vector] *)

Module Parser.
Import Py.
Section WithFloat.
Context {F : Type} {fo : FloatOps F}.

(** [x * n] for a number [x] and an integer [n]. *)
Definition num_mul_int (x : Num F) (n : Z) : Num F :=
  match x with
  | NInt z => NInt (z * n)
  | NFloat f => NFloat (float_mul_int f n)
  end.

(** The local variables of [convert_to_vector]. *)
Record Scan : Type := mkScan {
  list_channel_wfms : Event F;
  cur_channel : Z;
  time_idx : Z;
  waveform : Waveform F
}.

Definition colon : string := ":".
Definition LF : ascii := "010"%char.
Definition SP : ascii := " "%char.

(** The body of the inner loop, for one [entry]. *)
Definition scan_entry (dt : Num F) (st : Scan) (entry : string) : Res Scan :=
  if contains colon entry then
    st1 ← (if 0 <=? cur_channel st then
             l ← setitem (list_channel_wfms st) (cur_channel st) (Some (waveform st));
             mret (mkScan l (cur_channel st) 0 [])
           else mret st);
    n ← int_of_digits (sub_non_digits entry);
    mret (mkScan (list_channel_wfms st1) (n - 1) (time_idx st1) (waveform st1))
  else
    match float_of_str (strip entry) with
    | Some volt =>
        mret (mkScan (list_channel_wfms st) (cur_channel st) (time_idx st + 1)
                (waveform st ++ [(num_mul_int dt (time_idx st), volt)]))
    | None => mret st
    end.

(** The body of the outer loop, for one [line]. *)
Definition scan_line (dt : Num F) (st : Scan) (line : string) : Res Scan :=
  for_each (scan_entry dt) (split SP line) st.

Definition scan_init : Scan := mkScan (replicate 4 None) (-1) 0 [].

(** [convert_to_vector(values)] with [self.dt = dt]; [values] is [None] or
    a string. *)
Definition convert_to_vector (dt : Num F) (values : option string)
  : Res (Event F) :=
  match values with
  | None => mret (replicate 4 None)
  | Some v =>
      st ← for_each (scan_line dt) (split LF v) scan_init;
      setitem (list_channel_wfms st) (cur_channel st) (Some (waveform st))
  end.

(** *** Vocabulary for the statements about the parser *)

(** The entries in the order in which the two loops visit them. *)
Definition tokens (values : string) : list string :=
  flat_map (split SP) (split LF values).

(** An entry is a channel marker when it contains a colon; [marker_of]
    holds of a marker and the channel number read from it. *)
Definition marker_of (entry : string) (channel : Z) : Prop :=
  contains colon entry = true /\
  int_of_digits (sub_non_digits entry) = Ok channel.

Definition plain (entry : string) : Prop := contains colon entry = false.

(** A numeric entry and the voltage [float] reads from it. *)
Definition numeric (entry : string) (volt : F) : Prop :=
  plain entry /\ float_of_str (strip entry) = Some volt.

(** The voltages of the numeric entries of a list, in order. *)
Definition voltages (entries : list string) : list F :=
  omap (fun entry => float_of_str (strip entry)) entries.

(** The waveform of the voltages [vs], sampled from index [i0] on. *)
Fixpoint samples_from (dt : Num F) (i0 : Z) (vs : list F) : Waveform F :=
  match vs with
  | [] => []
  | v :: vs' => (num_mul_int dt i0, v) :: samples_from dt (i0 + 1) vs'
  end.

Definition samples (dt : Num F) (vs : list F) : Waveform F :=
  samples_from dt 0 vs.

End WithFloat.
Arguments Scan F : clear implicits.
End Parser.

(** ** The output writer: the text of [DaqRunner.dump_data] *)

Module Writer.
Import Py.
Section WithFloat.
Context {F : Type} {fo : FloatOps F}.

Definition NL : string := String "010"%char EmptyString.

(** [str(x)] for a number. *)
Definition str_num (x : Num F) : string :=
  match x with
  | NInt z => str_int z
  | NFloat f => str_float f
  end.

(** [if channel:] is false for [None] and for the empty list. *)
Definition truthy (channel : option (Waveform F)) : bool :=
  match channel with
  | Some (_ :: _) => true
  | _ => false
  end.

(** The text of the write for one sample. *)
Definition entry_line (entry : Sample F) : string :=
  str_num (fst entry) +:+ "," +:+ str_float (snd entry) +:+ NL.

(** The text of the write that opens a channel's block. *)
Definition header (event_num channel_num : nat) : string :=
  str_int (Z.of_nat event_num) +:+ ";CH" +:+ str_int (Z.of_nat channel_num + 1) +:+ NL.

(** The writes of the innermost loop, after the text [out] written so far. *)
Definition write_entries (out : string) (channel : Waveform F) : string :=
  fold_left (fun out (entry : Sample F) => out +:+ entry_line entry) channel out.

(** The body of the loop over the channels of event [event_num]. *)
Definition write_channel (event_num : nat) (out : string)
  (ic : nat * option (Waveform F)) : string :=
  let '(channel_num, channel) := ic in
  if truthy channel then
    let out1 := out +:+ header event_num channel_num in
    let out2 := write_entries out1 (default [] channel) in
    out2 +:+ (NL +:+ NL)
  else out.

(** The body of the loop over the events. *)
Definition write_event (out : string) (ie : nat * Event F) : string :=
  let '(event_num, event) := ie in
  fold_left (write_channel event_num) (enumerate event) out.

(** Everything [dump_data] writes between [open] and [close]. *)
Definition write_events (list_events : list (Event F)) : string :=
  fold_left write_event (enumerate list_events) EmptyString.

(** *** Vocabulary for the statements about the writer *)

(** The sample lines of a waveform, one after another. *)
Definition sample_lines (channel : Waveform F) : string :=
  foldr (fun entry rest => entry_line entry +:+ rest) EmptyString channel.

(** The text of the events [events] when they are numbered from [n]. *)
Definition write_events_from (n : nat) (events : list (Event F)) : string :=
  fold_left write_event (imap (fun i event => ((n + i)%nat, event)) events) EmptyString.

End WithFloat.
End Writer.

(** ** The sweep controller: [DaqRunner.__init__] and its methods *)

Module Daq.
Import Py.

(** The arguments of the constructor other than the stop queue. *)
Record Config : Type := mkConfig {
  scope_ip : string;
  num_events : Z;
  active_channels : list bool;
  output_filename : string;
  caen_ip : string;
  volt_list : list string;
  caen_channel : string
}.

(** The world around the controller: what the power supply answers to its
    [n]-th status check, what the oscilloscope answers to its [n]-th query
    (given the command; [None] is Python's [None]), and the first call of
    [stop_queue.empty()] that finds the stop signal posted ([None]: it is
    never posted). The queue is only ever put to, once, so every later call
    finds the signal too. *)
Record Env : Type := mkEnv {
  status_reply : nat -> string;
  query_reply : nat -> string -> option string;
  stop_posted_at : option nat
}.

(** Calls on the two device clients, as the trace records them. *)
Inductive Command : Type :=
| CaenOpen (ip : string)
| ScopeOpen (ip : string)
| StatusCheck (channel : string)
| EnableOutput (channel : string) (on : bool)
| SetOutput (channel : string) (volt : string)
| Sleep (seconds : Z)
| Query (command : string)
| ScopeClose
| CaenClose.

Section WithFloat.
Context {F : Type} {fo : FloatOps F}.

(** The mutable state: the class attribute [list_events], [self.dt], the
    files on disk, the device calls made so far (oldest first) and how many
    status checks, scope queries and stop checks have been made. *)
Record State : Type := mkState {
  list_events : list (Event F);
  dt : Num F;
  files : gmap string string;
  trace : list Command;
  status_checks : nat;
  queries : nat;
  stop_checks : nat
}.

(** A run returns, raises, or is still inside a status poll when the fuel
    runs out. *)
Inductive Outcome (A : Type) : Type :=
| Done (a : A) (s : State)
| Raised (e : Exn) (s : State)
| Polling (s : State).
Arguments Done {A} a s.
Arguments Raised {A} e s.
Arguments Polling {A} s.

Definition M (A : Type) : Type := State -> Outcome A.

Definition ret {A : Type} (a : A) : M A := fun s => Done a s.

Definition bind {A B : Type} (k : A -> M B) (c : M A) : M B :=
  fun s =>
    match c s with
    | Done a s' => k a s'
    | Raised e s' => Raised e s'
    | Polling s' => Polling s'
    end.

#[export] Instance m_ret : MRet M := @ret.
#[export] Instance m_bind : MBind M := @bind.

Definition raise {A : Type} (e : Exn) : M A := fun s => Raised e s.

Definition lift {A : Type} (r : Res A) : M A :=
  match r with
  | Ok a => ret a
  | Raise e => raise e
  end.

Section WithEnv.
Variable env : Env.
Variable cfg : Config.

(** *** Device clients and the stop queue *)

Definition emit (c : Command) : M unit := fun s =>
  Done tt (mkState (list_events s) (dt s) (files s) (trace s ++ [c])
             (status_checks s) (queries s) (stop_checks s)).

(** [self.caen.status_check(self.caen_channel)]. *)
Definition caen_status_check : M string := fun s =>
  Done (status_reply env (status_checks s))
    (mkState (list_events s) (dt s) (files s)
       (trace s ++ [StatusCheck (caen_channel cfg)])
       (S (status_checks s)) (queries s) (stop_checks s)).

(** [self.scope.inst.query(command)]. *)
Definition scope_query (command : string) : M (option string) := fun s =>
  Done (query_reply env (queries s) command)
    (mkState (list_events s) (dt s) (files s) (trace s ++ [Query command])
       (status_checks s) (S (queries s)) (stop_checks s)).

Definition posted (n : nat) : bool :=
  match stop_posted_at env with
  | Some t => (t <=? n)%nat
  | None => false
  end.

(** [self.stop_queue.empty()]. *)
Definition stop_queue_empty : M bool := fun s =>
  Done (negb (posted (stop_checks s)))
    (mkState (list_events s) (dt s) (files s) (trace s)
       (status_checks s) (queries s) (S (stop_checks s))).

Definition get_dt : M (Num F) := fun s => Done (dt s) s.

Definition set_dt (x : Num F) : M unit := fun s =>
  Done tt (mkState (list_events s) x (files s) (trace s)
             (status_checks s) (queries s) (stop_checks s)).

(** [self.list_events.append(event)]. *)
Definition append_event (event : Event F) : M unit := fun s =>
  Done tt (mkState (list_events s ++ [event]) (dt s) (files s) (trace s)
             (status_checks s) (queries s) (stop_checks s)).

(** [while pat in self.caen.status_check(self.caen_channel): pass]. *)
Fixpoint poll_while (pat : string) (fuel : nat) : M unit :=
  match fuel with
  | O => fun s => Polling s
  | S fuel' =>
      st ← caen_status_check;
      if contains pat st then poll_while pat fuel' else mret tt
  end.

(** *** [dump_data] *)

Definition dump_path (volt : string) : string :=
  output_filename cfg +:+ "_" +:+ volt +:+ "V".

(** Opening with mode ['w'] empties the file, and the writes that follow
    add up to [write_events]; input/output errors are not modelled. *)
Definition dump_data (volt : string) : M unit := fun s =>
  Done tt (mkState (list_events s) (dt s)
             (<[dump_path volt := Writer.write_events (list_events s)]> (files s))
             (trace s) (status_checks s) (queries s) (stop_checks s)).

(** *** [get_events] *)

(** The query built by the loop over [self.channels]. *)
Definition command_payload (channels : list bool) : string :=
  fold_left
    (fun payload (ic : nat * bool) =>
       let '(channel_number, active_channel) := ic in
       if active_channel
       then payload +:+ ("C" +:+ str_int (Z.of_nat channel_number) +:+ ":INSPECT? SIMPLE;")
       else payload)
    (enumerate channels) EmptyString.

(** The loop [for event in range(self.num_events)], [n] iterations left. *)
Fixpoint get_events_loop (n : nat) : M unit :=
  match n with
  | O => mret tt
  | S n' =>
      empty ← stop_queue_empty;
      if negb empty then mret tt
      else
        reply ← scope_query (command_payload (active_channels cfg));
        dt ← get_dt;
        event ← lift (Parser.convert_to_vector dt reply);
        append_event event;;
        get_events_loop n'
  end.

Definition get_events : M unit := get_events_loop (Z.to_nat (num_events cfg)).

(** *** [get_timebase] *)

(** [float(raw_dt.split(":")[2].split(" ")[1])]. *)
Definition read_timebase (raw_dt : option string) : Res F :=
  match raw_dt with
  | None => Raise AttributeError
  | Some raw =>
      field ← getitem (split ":" raw) 2;
      word ← getitem (split " " field) 1;
      match float_of_str word with
      | Some dt => Ok dt
      | None => Raise ValueError
      end
  end.

Definition timebase_query : string := "C2:INSPECT? HORIZ_INTERVAL".

Definition get_timebase : M unit :=
  raw_dt ← scope_query timebase_query;
  dt ← lift (read_timebase raw_dt);
  set_dt (NFloat dt).

(** *** [__init__] *)

(** One voltage step: the body of the sweep loop after its stop check. *)
Definition step (fuel : nat) (volt : string) : M unit :=
  emit (SetOutput (caen_channel cfg) volt);;
  emit (Sleep 5);;
  poll_while "RAMP UP" fuel;;
  get_timebase;;
  get_events;;
  dump_data volt.

(** The loop [for volt in self.volt_list]. *)
Fixpoint sweep (fuel : nat) (volts : list string) : M unit :=
  match volts with
  | [] => mret tt
  | volt :: rest =>
      empty ← stop_queue_empty;
      if negb empty then mret tt
      else step fuel volt;; sweep fuel rest
  end.

(** What follows the loop: neutral output, ramp-down wait, closing. *)
Definition shutdown (fuel : nat) : M unit :=
  emit (SetOutput (caen_channel cfg) "0");;
  poll_while "RAMP DOWN" fuel;;
  emit ScopeClose;;
  emit CaenClose.

Definition init (fuel : nat) : M unit :=
  emit (CaenOpen (caen_ip cfg));;
  emit (ScopeOpen (scope_ip cfg));;
  set_dt (NInt 0);;
  status ← caen_status_check;
  (if negb (contains "ON" status)
   then emit (EnableOutput (caen_channel cfg) true) else mret tt);;
  sweep fuel (volt_list cfg);;
  shutdown fuel.

(** The state in which a run ends, returns or not. *)
Definition final_state {A : Type} (o : Outcome A) : State :=
  match o with
  | Done _ s => s
  | Raised _ s => s
  | Polling s => s
  end.

End WithEnv.
End WithFloat.
Arguments State F : clear implicits.
Arguments Outcome F A : clear implicits.
Arguments M F A : clear implicits.
Arguments Done {F A} a s.
Arguments Raised {F A} e s.
Arguments Polling {F A} s.
End Daq.

(** ** A run on binary64, for the examples *)

Module Demo.
Import Py Daq Binary64.
#[local] Existing Instance binary64.

(** The timebase [1e-09]. *)
Definition dt_ns : Num float := NFloat 0x1.12e0be826d695p-30%float.

Definition response_1_3 : string :=
  "C1:INSPECT 1.5 1.6" +:+ Writer.NL +:+ "C3:INSPECT 7 8".

Definition response_short : string :=
  "C1:INSPECT 2.5" +:+ Writer.NL +:+ "C3:INSPECT 3".

(** Two voltages, two events for each, channels 1 and 3 active. *)
Definition cfg : Config :=
  mkConfig "192.168.0.2" 2 [true; false; true; false] "run"
    "192.168.0.1" ["100"; "200"] "0".

(** A supply that is off at first and ramps for one or two status checks
    after each new voltage. *)
Definition statuses (n : nat) : string :=
  match n with
  | 0 => "OFF"
  | 1 => "ON RAMP UP"
  | 2 => "ON"
  | 3 => "ON RAMP UP"
  | 4 => "ON RAMP UP"
  | 5 => "ON"
  | 6 => "ON RAMP DOWN"
  | _ => "OFF"
  end%nat.

(** A supply that is on, then ramps down for two status checks. *)
Definition statuses_down (n : nat) : string :=
  match n with
  | 0 => "ON"
  | 1 => "ON RAMP DOWN"
  | 2 => "ON RAMP DOWN"
  | _ => "OFF"
  end%nat.

Definition replies (n : nat) (command : string) : option string :=
  if String.eqb command timebase_query then Some "C2:INSP HORIZ_INTERVAL : 1e-09"
  else if Nat.even n then Some response_1_3 else Some response_short.

Definition env (status : nat -> string) (stop : option nat) : Env :=
  mkEnv status replies stop.

(** Before [__init__], with an empty log and no file. *)
Definition start : State float := mkState [] (NInt 0) ∅ [] 0 0 0.

(** After the clients are opened and the output is enabled. *)
Definition opened : State float :=
  mkState [] (NInt 0) ∅
    [CaenOpen "192.168.0.1"; ScopeOpen "192.168.0.2"; StatusCheck "0";
     EnableOutput "0" true] 1 0 0.

(** The event read from [response_short] with the timebase [1e-09]. *)
Definition event_short : Event float :=
  [Some [(NFloat 0%float, 2.5%float)]; None; Some [(NFloat 0%float, 3%float)]; None].

(** The states two full steps leave when no stop signal is posted. *)
Definition after_step1 : State float :=
  final_state (step (env statuses None) cfg 5 "100" opened).


End Demo.

(** ** Vocabulary for the further properties *)

Module View.
Import Py.

(** [s] with every character [a] replaced by [b]. *)
Fixpoint replace_char (a b : ascii) (s : string) : string :=
  match s with
  | EmptyString => EmptyString
  | String c s' => String (if Ascii.eqb c a then b else c) (replace_char a b s')
  end.

(** How many times the character [c] occurs in [s]. *)
Fixpoint count_char (c : ascii) (s : string) : nat :=
  match s with
  | EmptyString => O
  | String a s' => if Ascii.eqb a c then S (count_char c s') else count_char c s'
  end.

(** [f] on the value a computation returns. *)
Definition on_result {A B : Type} (f : A -> B) (r : Res A) : Res B :=
  match r with
  | Ok a => Ok (f a)
  | Raise e => Raise e
  end.

Section WithFloat.
Context {F : Type} {fo : FloatOps F}.

(** A waveform is timed by [dt] when its [i]-th sample carries the time
    [dt * i]. *)
Definition timed (dt : Num F) (wf : Waveform F) : Prop :=
  forall (i : nat) (t : Num F) (v : F),
    wf !! i = Some (t, v) -> t = Parser.num_mul_int dt (Z.of_nat i).

(** The voltages of an event, slot by slot, without the times. *)
Definition event_voltages (ev : Event F) : list (option (list F)) :=
  map (option_map (map snd)) ev.

(** What the scan keeps true from entry to entry: four slots, a sample
    index equal to the number of samples read for the current channel, and
    waveforms timed by [dt]. *)
Definition scan_inv (dt : Num F) (st : Parser.Scan F) : Prop :=
  length (Parser.list_channel_wfms st) = 4%nat
  /\ Parser.time_idx st = Z.of_nat (length (Parser.waveform st))
  /\ timed dt (Parser.waveform st)
  /\ Forall (fun slot => forall wf, slot = Some wf -> timed dt wf)
       (Parser.list_channel_wfms st).

(** Two scans that differ in the times only. *)
Definition same_voltages (st st' : Parser.Scan F) : Prop :=
  event_voltages (Parser.list_channel_wfms st)
  = event_voltages (Parser.list_channel_wfms st')
  /\ Parser.cur_channel st = Parser.cur_channel st'
  /\ map snd (Parser.waveform st) = map snd (Parser.waveform st').

End WithFloat.
End View.

(** ** Vocabulary for the further properties of the controller *)

Module Run.
Import Py Daq.

(** The voltages of the [set_output] calls of a trace, in order. *)
Definition set_outputs (t : list Command) : list string :=
  omap (fun c => match c with SetOutput _ volt => Some volt | _ => None end) t.

(** The [close] calls of a trace, in order. *)
Definition closes (t : list Command) : list Command :=
  omap (fun c => match c with
                 | ScopeClose => Some ScopeClose
                 | CaenClose => Some CaenClose
                 | _ => None
                 end) t.

(** A stretch of trace with status checks and queries only. *)
Definition quiet (t : list Command) : Prop :=
  set_outputs t = [] /\ closes t = [].

(** The part of the capture query that asks for the channel [i]. *)
Definition query_part (i : nat) : string :=
  "C" +:+ str_int (Z.of_nat i) +:+ ":INSPECT? SIMPLE;".

End Run.

(** ** The console monitor: [ui_handler] *)

Module Ui.
Import Py.

(** The name of a [Queue] object: the one bound to the module-level
    [queue_stop], or another one, known by its number. Two names are the same
    object exactly when they are equal, so that a queue passed as an argument
    may be [queue_stop] itself. *)
Inductive QueueRef : Type :=
| QueueStop
| OtherQueue (n : nat).

(** What the monitor thread works on: the lines still to be typed at the
    console, the number of prompts shown, the seconds slept, the content of
    the module-level [queue_stop] and the contents of the other queues. *)
Record World : Type := mkWorld {
  stdin : list string;
  prompts : nat;
  slept : Z;
  queue_stop : list string;
  other_queues : gmap nat (list string)
}.

(** The content of the queue a name stands for. *)
Definition contents (w : World) (q : QueueRef) : option (list string) :=
  match q with
  | QueueStop => Some (queue_stop w)
  | OtherQueue n => other_queues w !! n
  end.

(** The thread returns, or ends with the [EOFError] of [input()] at the end
    of the input. *)
Inductive Outcome : Type :=
| Returned (w : World)
| EndOfInput (w : World).

(** [str.lower()] below U+0100: the letters [A]-[Z] and the capital
    letters U+00C0-U+00DE (the sign U+00D7 is none) move up by 32. *)
Definition lower_char (a : ascii) : ascii :=
  let n := nat_of_ascii a in
  if ((65 <=? n)%nat && (n <=? 90)%nat)
     || ((192 <=? n)%nat && (n <=? 222)%nat && negb (n =? 215)%nat)
  then ascii_of_nat (n + 32) else a.

Fixpoint str_lower (s : string) : string :=
  match s with
  | EmptyString => EmptyString
  | String a s' => String (lower_char a) (str_lower s')
  end.

(** The loop [while True]: the lines left and the number of prompts shown
    when it ends, with [None] for the lines when [input()] raised. *)
Fixpoint prompt_loop (lines : list string) (asked : nat) : option (list string) * nat :=
  match lines with
  | [] => (None, S asked)
  | command :: rest =>
      if contains "s" (str_lower command) then (Some rest, S asked)
      else prompt_loop rest (S asked)
  end.

(** [ui_handler(interrupt_queue)]: the body never mentions its argument,
    and [queue_stop.put] adds at the end of the module-level queue, which is
    the argument's queue as well when the argument is [queue_stop] itself. *)
Definition ui_handler (interrupt_queue : QueueRef) (w : World) : Outcome :=
  match prompt_loop (stdin w) (prompts w) with
  | (Some rest, asked) =>
      Returned (mkWorld rest asked (slept w + 10) (queue_stop w ++ ["STOP"])
                  (other_queues w))
  | (None, asked) =>
      EndOfInput (mkWorld [] asked (slept w + 10) (queue_stop w) (other_queues w))
  end.

(** A command with the letter [s], in either case. *)
Fixpoint has_s (command : string) : bool :=
  match command with
  | EmptyString => false
  | String a rest => Ascii.eqb a "s" || Ascii.eqb a "S" || has_s rest
  end.

End Ui.

(** ** The script: what [__main__] hands to [DaqRunner] *)

Module Main.
Import Py.

(** [volt_list = config.get("caen", "volts").split(",")], for an option
    that has a value. *)
Definition volt_list_of (volts : string) : list string := split "," volts.

(** [Thread(target=ui_handler, args=(queue_stop,))]: the one call of
    [ui_handler], which is given the module-level queue itself. *)
Definition monitor (w : Ui.World) : Ui.Outcome := Ui.ui_handler Ui.QueueStop w.

End Main.

(** ** Further example data *)

Module Cases.
Import Py Daq Binary64 Demo.
#[local] Existing Instance binary64.

(** The event read from [response_1_3] with the timebase [1e-09]. *)
Definition event_1_3 : Event float :=
  [Some [(NFloat 0%float, 1.5%float);
         (NFloat 0x1.12e0be826d695p-30%float, 0x1.999999999999ap+0%float)];
   None;
   Some [(NFloat 0%float, 7%float); (NFloat 0x1.12e0be826d695p-30%float, 8%float)];
   None].

(** A supply that is on and never ramps. *)
Definition steady (n : nat) : string := "ON".

(** A supply that never stops ramping up. *)
Definition ramping (n : nat) : string := "ON RAMP UP".

(** A scope that answers every query with a text without a colon. *)
Definition no_fields (n : nat) (command : string) : option string := Some "ERR".

(** A scope whose second capture reply names a channel 7. *)
Definition replies_ch7 (n : nat) (command : string) : option string :=
  if String.eqb command timebase_query then Some "C2:INSP HORIZ_INTERVAL : 1e-09"
  else if (n =? 1)%nat then Some response_short else Some "C7:INSPECT 1".

(** A runner with the timebase [1e-09], an empty log and no file. *)
Definition ready : State float := mkState [] dt_ns ∅ [] 0 0 0.

(** Where [__init__] ends when the scope answers with [no_fields]. *)
Definition crashed : State float :=
  final_state (init (mkEnv statuses no_fields None) cfg 5 start).

(** Where [__init__] ends when no stop signal is posted. *)
Definition finished : State float :=
  final_state (init (env statuses None) cfg 5 start).

(** A console session: three commands typed, the second one with an [S];
    another queue holds a message. *)
Definition session : Ui.World :=
  Ui.mkWorld ["help"; "Stop"; "later"] 0 0 [] {[ 0%nat := ["left"] ]}.

(** A console session that ends without a command with the letter. *)
Definition idle_session : Ui.World :=
  Ui.mkWorld ["help"; "quit"] 0 0 [] {[ 0%nat := ["left"] ]}.

End Cases.

(** * Properties *)

(** ** The built-ins on small inputs *)

Section BuiltinExamples.
Import Py.

Example split_adjacent : split " " "a  b" = ["a"; ""; "b"].
Proof. reflexivity. Qed.

Example split_empty : split Parser.LF "" = [""].
Proof. reflexivity. Qed.

Example split_trailing : split Parser.LF ("x" +:+ Writer.NL) = ["x"; ""].
Proof. reflexivity. Qed.

Example contains_substring :
  contains "RAMP UP" "ON RAMP UP" = true /\ contains "ON" "RAMP DOWN" = false
  /\ contains ":" "C1:INSPECT" = true /\ contains "" "x" = true.
Proof. repeat split. Qed.

Example strip_both_ends :
  strip (String "009"%char ("1.5" +:+ String "013"%char " ")) = "1.5".
Proof. reflexivity. Qed.

Example sub_non_digits_marker : sub_non_digits "C12:INSP3" = "123".
Proof. reflexivity. Qed.

Example int_of_digits_examples :
  int_of_digits "007" = Ok 7 /\ int_of_digits "" = Raise ValueError.
Proof. split; reflexivity. Qed.

Example str_int_examples : str_int (-12) = "-12" /\ str_int 0 = "0".
Proof. split; reflexivity. Qed.

Example setitem_examples :
  setitem [0; 1; 2; 3] (-1) 9 = Ok [0; 1; 2; 9]
  /\ setitem [0; 1; 2; 3] 4 9 = Raise IndexError
  /\ setitem [0; 1; 2; 3] (-5) 9 = Raise IndexError.
Proof. repeat split. Qed.

Example float_examples :
  float_of_str (FloatOps := Binary64.binary64) "1.6" = Some 0x1.999999999999ap+0%float
  /\ float_of_str (FloatOps := Binary64.binary64) "1e-09"
     = Some 0x1.12e0be826d695p-30%float
  /\ float_of_str (FloatOps := Binary64.binary64) "ERR" = None
  /\ float_of_str (FloatOps := Binary64.binary64) "" = None
  /\ Binary64.repr 0x1.12e0be826d695p-30%float = "1e-09"
  /\ Binary64.repr 1e+16%float = "1e+16"
  /\ Binary64.repr 0x1.a36e2eb1c432dp-14%float = "0.0001"
  /\ Binary64.repr 0x1.999999999999ap-4%float = "0.1"
  /\ Binary64.repr 3%float = "3.0".
Proof. repeat split; vm_compute; reflexivity. Qed.

Example read_timebase_example :
  Daq.read_timebase (fo := Binary64.binary64) (Some "C2:INSP HORIZ_INTERVAL : 1e-09")
  = Ok 0x1.12e0be826d695p-30%float.
Proof. vm_compute. reflexivity. Qed.

End BuiltinExamples.

(** ** The parser *)

Section ParserProperties.
Import Py Parser.
Context {F : Type} {fo : FloatOps F}.
Implicit Types (dt : Num F) (st : Scan F) (entry values : string).

Lemma for_each_app {A S : Type} (body : S -> A -> Res S) (l1 l2 : list A) (st : S) :
  for_each body (l1 ++ l2) st = for_each body l1 st ≫= for_each body l2.
Proof.
  revert st. induction l1 as [|x l1 IH]; intros st; simpl; [reflexivity|].
  destruct (body st x) as [st'|e]; simpl; [apply IH | reflexivity].
Qed.

(** The two nested loops visit the entries of [tokens] one after another. *)
Lemma scan_lines_tokens dt (lines : list string) st :
  for_each (scan_line dt) lines st
  = for_each (scan_entry dt) (flat_map (split SP) lines) st.
Proof.
  revert st. induction lines as [|line lines IH]; intros st; simpl; [reflexivity|].
  rewrite for_each_app.
  change (scan_line dt st line) with (for_each (scan_entry dt) (split SP line) st).
  destruct (for_each (scan_entry dt) (split SP line) st); simpl; [apply IH | reflexivity].
Qed.

Lemma convert_to_vector_tokens dt values :
  convert_to_vector dt (Some values)
  = st ← for_each (scan_entry dt) (tokens values) scan_init;
    setitem (list_channel_wfms st) (cur_channel st) (Some (waveform st)).
Proof. unfold convert_to_vector, tokens. by rewrite scan_lines_tokens. Qed.

(** An entry that is neither a marker nor a number changes nothing. *)
Lemma scan_entry_skip dt st entry :
  plain entry -> float_of_str (strip entry) = None ->
  scan_entry dt st entry = Ok st.
Proof. unfold plain, scan_entry. by intros -> ->. Qed.

Lemma scan_entry_sample dt st entry (volt : F) :
  plain entry -> float_of_str (strip entry) = Some volt ->
  scan_entry dt st entry
  = Ok (mkScan (list_channel_wfms st) (cur_channel st) (time_idx st + 1)
          (waveform st ++ [(num_mul_int dt (time_idx st), volt)])).
Proof. unfold plain, scan_entry. by intros -> ->. Qed.

(** A run of entries without a marker appends the samples of its numeric
    entries, numbered from the current sample index. *)
Lemma scan_plain dt (entries : list string) st :
  Forall plain entries ->
  for_each (scan_entry dt) entries st
  = Ok (mkScan (list_channel_wfms st) (cur_channel st)
          (time_idx st + Z.of_nat (length (voltages entries)))
          (waveform st ++ samples_from dt (time_idx st) (voltages entries))).
Proof.
  intros Hplain. revert st. unfold voltages.
  induction Hplain as [|entry entries Hentry _ IH]; intros st.
  - simpl. rewrite Z.add_0_r, app_nil_r. by destruct st.
  - simpl. destruct (float_of_str (strip entry)) as [volt|] eqn:Hfloat.
    + rewrite (scan_entry_sample _ _ _ volt) by done. simpl.
      rewrite IH. simpl. rewrite <- app_assoc. simpl. f_equal. f_equal.
      rewrite Nat2Z.inj_succ, <- Z.add_assoc, Z.add_1_l. reflexivity.
    + rewrite scan_entry_skip by done. simpl. apply IH.
Qed.

(** The first marker of a response only selects the channel. *)
Lemma scan_entry_first_marker dt st entry (channel : Z) :
  marker_of entry channel -> cur_channel st < 0 ->
  scan_entry dt st entry
  = Ok (mkScan (list_channel_wfms st) (channel - 1) (time_idx st) (waveform st)).
Proof.
  intros [Hcolon Hint] Hcur. unfold scan_entry. rewrite Hcolon.
  destruct (Z.leb_spec 0 (cur_channel st)); [lia|]. simpl. by rewrite Hint.
Qed.

(** A later marker stores the waveform read so far in the slot of the
    current channel and restarts the sample index. *)
Lemma scan_entry_next_marker dt st entry (channel : Z) :
  marker_of entry channel ->
  0 <= cur_channel st < Z.of_nat (length (list_channel_wfms st)) ->
  scan_entry dt st entry
  = Ok (mkScan (<[Z.to_nat (cur_channel st) := Some (waveform st)]> (list_channel_wfms st))
          (channel - 1) 0 []).
Proof.
  intros [Hcolon Hint] Hcur. unfold scan_entry, setitem. rewrite Hcolon.
  destruct (Z.leb_spec 0 (cur_channel st)); [|lia].
  destruct (Z.ltb_spec (cur_channel st) (Z.of_nat (length (list_channel_wfms st)))); [|lia].
  simpl. by rewrite Hint.
Qed.

Lemma length_samples_from dt (i0 : Z) (vs : list F) :
  length (samples_from dt i0 vs) = length vs.
Proof. revert i0. induction vs as [|v vs IH]; intros i0; simpl; [done | by rewrite IH]. Qed.

Lemma lookup_samples_from dt (i0 : Z) (vs : list F) (i : nat) :
  samples_from dt i0 vs !! i
  = (fun v => (num_mul_int dt (i0 + Z.of_nat i), v)) <$> vs !! i.
Proof.
  revert i0 i. induction vs as [|v vs IH]; intros i0 [|i]; simpl; try done.
  - by rewrite Z.add_0_r.
  - rewrite IH. destruct (vs !! i); simpl; [|done]. do 3 f_equal. lia.
Qed.

Lemma numeric_entries (entries : list string) (vs : list F) :
  Forall2 numeric entries vs -> Forall plain entries /\ voltages entries = vs.
Proof.
  unfold voltages. induction 1 as [|entry v entries vs [Hplain Hfloat] _ [IH1 IH2]]; simpl.
  - done.
  - rewrite Hfloat. split; [by constructor | f_equal; exact IH2].
Qed.

Lemma length_samples dt (vs : list F) : length (samples dt vs) = length vs.
Proof. apply length_samples_from. Qed.

Lemma lookup_samples dt (vs : list F) (i : nat) (v : F) :
  vs !! i = Some v -> samples dt vs !! i = Some (num_mul_int dt (Z.of_nat i), v).
Proof. intros Hv. unfold samples. by rewrite lookup_samples_from, Hv. Qed.

(** A response whose entries are: a marker of channel [a], entries without
    a colon, a marker of channel [b], entries without a colon. *)
Lemma convert_two_markers dt values (ma mb : string) (a b : Z) (tsa tsb : list string) :
  tokens values = ma :: tsa ++ mb :: tsb ->
  marker_of ma a -> marker_of mb b ->
  Forall plain tsa -> Forall plain tsb ->
  1 <= a <= 4 ->
  convert_to_vector dt (Some values)
  = setitem (<[Z.to_nat (a - 1) := Some (samples dt (voltages tsa))]> (replicate 4 None))
      (b - 1) (Some (samples dt (voltages tsb))).
Proof.
  intros Htokens Hma Hmb Hplain_a Hplain_b Ha.
  rewrite convert_to_vector_tokens, Htokens.
  simpl. rewrite (scan_entry_first_marker _ _ _ a) by done. simpl.
  rewrite for_each_app, scan_plain by done. simpl.
  rewrite (scan_entry_next_marker _ _ _ b) by (done || simpl; lia). simpl.
  rewrite scan_plain by done. reflexivity.
Qed.

(** C2. For every response whose entries are a marker of channel 1, [N]
    numeric entries, a marker of channel 3 and [N] numeric entries, and for
    every timebase [dt], [convert_to_vector] returns four slots: slot 0 holds
    the waveform of the first run and slot 2 that of the second, each of
    length [N] with [(dt * i, i-th voltage)] as its [i]-th sample (the
    sample index restarts at 0 for the second channel), and slots 1 and 3
    are [None]. *)
Theorem convert_channels_1_and_3 dt values (m1 m3 : string)
    (ts1 ts3 : list string) (vs1 vs3 : list F) (N : nat) :
  tokens values = m1 :: ts1 ++ m3 :: ts3 ->
  marker_of m1 1 -> marker_of m3 3 ->
  Forall2 numeric ts1 vs1 -> Forall2 numeric ts3 vs3 ->
  length ts1 = N -> length ts3 = N ->
  exists wf1 wf3 : Waveform F,
    convert_to_vector dt (Some values) = Ok [Some wf1; None; Some wf3; None]
    /\ length wf1 = N /\ length wf3 = N
    /\ (forall (i : nat) (v : F), vs1 !! i = Some v ->
          wf1 !! i = Some (num_mul_int dt (Z.of_nat i), v))
    /\ (forall (i : nat) (v : F), vs3 !! i = Some v ->
          wf3 !! i = Some (num_mul_int dt (Z.of_nat i), v)).
Proof.
  intros Htokens Hm1 Hm3 Hnum1 Hnum3 Hlen1 Hlen3.
  pose proof (Forall2_length _ _ _ Hnum1) as Hl1.
  pose proof (Forall2_length _ _ _ Hnum3) as Hl3.
  apply numeric_entries in Hnum1 as [Hplain1 Hvs1].
  apply numeric_entries in Hnum3 as [Hplain3 Hvs3].
  exists (samples dt vs1), (samples dt vs3).
  rewrite (convert_two_markers dt values m1 m3 1 3 ts1 ts3) by (done || lia).
  rewrite Hvs1, Hvs3, !length_samples.
  repeat split; [lia | lia | apply lookup_samples | apply lookup_samples].
Qed.

(** The same response with the two channels in the other order. *)
Lemma convert_channels_3_and_1 dt values (m3 m1 : string)
    (ts3 ts1 : list string) (vs3 vs1 : list F) :
  tokens values = m3 :: ts3 ++ m1 :: ts1 ->
  marker_of m3 3 -> marker_of m1 1 ->
  Forall2 numeric ts3 vs3 -> Forall2 numeric ts1 vs1 ->
  convert_to_vector dt (Some values)
  = Ok [Some (samples dt vs1); None; Some (samples dt vs3); None].
Proof.
  intros Htokens Hm3 Hm1 Hnum3 Hnum1.
  apply numeric_entries in Hnum1 as [Hplain1 <-].
  apply numeric_entries in Hnum3 as [Hplain3 <-].
  by rewrite (convert_two_markers dt values m3 m1 3 1 ts3 ts1) by (done || lia).
Qed.

(** C6. Inserting an entry that has no colon and is not a number (such as
    [ERR]) anywhere among the entries of a response leaves the result of
    [convert_to_vector] unchanged: the same slots, the same samples with the
    same times and voltages, and no exception that was not raised before. *)
Theorem malformed_entry_skipped dt values values' (pre post : list string) entry :
  tokens values = pre ++ post ->
  tokens values' = pre ++ entry :: post ->
  plain entry -> float_of_str (strip entry) = None ->
  convert_to_vector dt (Some values') = convert_to_vector dt (Some values).
Proof.
  intros Htokens Htokens' Hplain Hfloat.
  rewrite !convert_to_vector_tokens, Htokens, Htokens'.
  change (pre ++ entry :: post) with (pre ++ [entry] ++ post).
  rewrite !for_each_app. f_equal.
  destruct (for_each (scan_entry dt) pre scan_init) as [st|e]; simpl; [|done].
  by rewrite scan_entry_skip.
Qed.

(** A response without any marker: the final assignment uses the index
    [-1], Python's last slot. *)
Lemma convert_plain dt values :
  Forall plain (tokens values) ->
  convert_to_vector dt (Some values)
  = Ok [None; None; None; Some (samples dt (voltages (tokens values)))].
Proof.
  intros Hplain. rewrite convert_to_vector_tokens, scan_plain by done. reflexivity.
Qed.

(** C8. For every input whose entries are all numeric, none of them a
    marker, [convert_to_vector] returns without raising, and its result is
    one fixed assignment: slots 0 to 2 are [None] and the last slot holds
    the waveform of all the entries, sampled from index 0. *)
Theorem convert_numeric_only dt values (vs : list F) :
  Forall2 numeric (tokens values) vs ->
  convert_to_vector dt (Some values) = Ok [None; None; None; Some (samples dt vs)].
Proof.
  intros Hnum. apply numeric_entries in Hnum as [Hplain <-]. by apply convert_plain.
Qed.

End ParserProperties.

(** C7. Without an input ([None]) every slot is [None]; but on the empty
    string the loops run once over the empty entry, and the final assignment
    [list_channel_wfms[-1] = []] leaves an empty waveform, not [None], in the
    last slot. *)
Theorem convert_empty_input (dt : Num PrimFloat.float) :
  Parser.convert_to_vector (fo := Binary64.binary64) dt None
  = Py.Ok [None; None; None; None]
  /\ Parser.convert_to_vector (fo := Binary64.binary64) dt (Some EmptyString)
     = Py.Ok [None; None; None; Some []].
Proof. split; reflexivity. Qed.

(** *** The parser on binary64 responses *)

Section ParserExamples.
Import Py Parser Binary64 Demo.
Local Existing Instance binary64.

Lemma convert_channels_1_and_3_witness :
  exists wf1 wf3 : Waveform float,
    convert_to_vector dt_ns (Some response_1_3) = Ok [Some wf1; None; Some wf3; None]
    /\ length wf1 = 2%nat /\ length wf3 = 2%nat
    /\ (forall (i : nat) (v : float), [1.5; 0x1.999999999999ap+0]%float !! i = Some v ->
          wf1 !! i = Some (num_mul_int dt_ns (Z.of_nat i), v))
    /\ (forall (i : nat) (v : float), [7; 8]%float !! i = Some v ->
          wf3 !! i = Some (num_mul_int dt_ns (Z.of_nat i), v)).
Proof.
  apply (convert_channels_1_and_3 dt_ns response_1_3 "C1:INSPECT" "C3:INSPECT"
           ["1.5"; "1.6"] ["7"; "8"]).
  - reflexivity.
  - split; reflexivity.
  - split; reflexivity.
  - repeat constructor.
  - repeat constructor.
  - reflexivity.
  - reflexivity.
Defined.

Lemma malformed_entry_skipped_witness :
  convert_to_vector dt_ns (Some "C1:INSPECT 1.5 ERR 1.6")
  = convert_to_vector dt_ns (Some "C1:INSPECT 1.5 1.6").
Proof.
  apply (malformed_entry_skipped dt_ns "C1:INSPECT 1.5 1.6" "C1:INSPECT 1.5 ERR 1.6"
           ["C1:INSPECT"; "1.5"] ["1.6"] "ERR"); reflexivity.
Defined.

Lemma convert_numeric_only_witness :
  convert_to_vector dt_ns (Some "2.5 3")
  = Ok [None; None; None; Some (samples dt_ns [2.5; 3]%float)].
Proof.
  apply (convert_numeric_only dt_ns "2.5 3" [2.5; 3]%float).
  repeat constructor.
Defined.

End ParserExamples.

(** ** The writer *)

Section WriterProperties.
Import Py Writer.
Context {F : Type} {fo : FloatOps F}.

Lemma string_app_assoc (a b c : string) : (a +:+ b) +:+ c = a +:+ (b +:+ c).
Proof.
  induction a as [|x a IH]; [done|].
  change (String x ((a +:+ b) +:+ c) = String x (a +:+ (b +:+ c))). by rewrite IH.
Qed.

Lemma string_app_nil_r (a : string) : a +:+ EmptyString = a.
Proof.
  induction a as [|x a IH]; [done|].
  change (String x (a +:+ EmptyString) = String x a). by rewrite IH.
Qed.

(** A loop whose body only appends to the text written so far. *)
Lemma fold_left_out {A : Type} (f : string -> A -> string) :
  (forall (out : string) (x : A), f out x = out +:+ f EmptyString x) ->
  forall (l : list A) (out : string),
    fold_left f l out = out +:+ fold_left f l EmptyString.
Proof.
  intros Hf l. induction l as [|x l IH]; intros out; simpl.
  - by rewrite string_app_nil_r.
  - rewrite IH, (IH (f EmptyString x)), (Hf out x). by rewrite string_app_assoc.
Qed.

Lemma write_entries_out (out : string) (channel : Waveform F) :
  write_entries out channel = out +:+ sample_lines channel.
Proof.
  unfold write_entries, sample_lines. revert out.
  induction channel as [|entry channel IH]; intros out; cbn [fold_left foldr].
  - by rewrite string_app_nil_r.
  - by rewrite IH, string_app_assoc.
Qed.

(** The block of a channel that has samples: header, sample lines, and
    two line feeds. *)
Lemma write_channel_present (event_num channel_num : nat) (out : string)
    (entry : Sample F) (channel : Waveform F) :
  write_channel event_num out (channel_num, Some (entry :: channel))
  = out +:+ header event_num channel_num +:+ sample_lines (entry :: channel)
        +:+ NL +:+ NL.
Proof.
  unfold write_channel. cbn [truthy default].
  by rewrite write_entries_out, !string_app_assoc.
Qed.

Lemma write_channel_out (event_num : nat) (out : string)
    (ic : nat * option (Waveform F)) :
  write_channel event_num out ic = out +:+ write_channel event_num EmptyString ic.
Proof.
  destruct ic as [channel_num [[|entry channel]|]];
    try (unfold write_channel; cbn [truthy]; by rewrite string_app_nil_r).
  by rewrite !write_channel_present.
Qed.

Lemma write_event_out (out : string) (ie : nat * Event F) :
  write_event out ie = out +:+ write_event EmptyString ie.
Proof.
  destruct ie as [event_num event]. unfold write_event.
  apply fold_left_out. apply write_channel_out.
Qed.

(** The text of a log extends the text of each of its prefixes: the
    events added later are written after it, numbered on from its length. *)
Lemma write_events_app (l1 l2 : list (Event F)) :
  write_events (l1 ++ l2) = write_events l1 +:+ write_events_from (length l1) l2.
Proof.
  unfold write_events, write_events_from, enumerate.
  rewrite imap_app, fold_left_app.
  apply (fold_left_out write_event write_event_out).
Qed.

End WriterProperties.

(** ** The sweep controller *)

Section DaqProperties.
Import Py Daq.
Context {F : Type} {fo : FloatOps F}.
Variable env : Env.
Variable cfg : Config.
Implicit Types (s : State F) (fuel : nat) (pat volt : string).

(** *** The status polls *)

(** One turn of a poll. *)
Lemma poll_while_S pat fuel s :
  poll_while env cfg pat (S fuel) s
  = let s1 := mkState (list_events s) (dt s) (files s)
                (trace s ++ [StatusCheck (caen_channel cfg)])
                (S (status_checks s)) (queries s) (stop_checks s) in
    if contains pat (status_reply env (status_checks s))
    then poll_while env cfg pat fuel s1 else Done tt s1.
Proof.
  cbv zeta. cbn [poll_while]. unfold mbind, m_bind, bind, caen_status_check.
  by destruct (contains pat (status_reply env (status_checks s))).
Qed.

(** A poll returns at the first status that lacks the pattern, after one
    status check more than the [j] statuses that had it. *)
Lemma poll_while_clears pat (j : nat) fuel s :
  (j < fuel)%nat ->
  (forall i : nat, (i < j)%nat ->
     contains pat (status_reply env (status_checks s + i)) = true) ->
  contains pat (status_reply env (status_checks s + j)) = false ->
  poll_while env cfg pat fuel s
  = Done tt (mkState (list_events s) (dt s) (files s)
               (trace s ++ replicate (S j) (StatusCheck (caen_channel cfg)))
               (status_checks s + S j) (queries s) (stop_checks s)).
Proof.
  revert fuel s. induction j as [|j IH]; intros [|fuel] s Hfuel Hramp Hclear; try lia.
  - rewrite poll_while_S. rewrite Nat.add_0_r in Hclear. rewrite Hclear. cbn zeta.
    do 2 f_equal. lia.
  - rewrite poll_while_S. specialize (Hramp 0%nat) as Hfirst.
    rewrite Nat.add_0_r in Hfirst. rewrite Hfirst by lia. cbn zeta.
    rewrite IH; cbn [list_events dt files trace status_checks queries stop_checks].
    + rewrite <- app_assoc. do 2 f_equal. lia.
    + lia.
    + intros i Hi. replace (S (status_checks s) + i)%nat
        with (status_checks s + S i)%nat by lia. apply Hramp. lia.
    + by replace (S (status_checks s) + j)%nat
        with (status_checks s + S j)%nat by lia.
Qed.

(** While every status has the pattern, a poll uses up any fuel. *)
Lemma poll_while_stuck pat fuel s :
  (forall n : nat, (n < fuel)%nat ->
     contains pat (status_reply env (status_checks s + n)) = true) ->
  poll_while env cfg pat fuel s
  = Polling (mkState (list_events s) (dt s) (files s)
               (trace s ++ replicate fuel (StatusCheck (caen_channel cfg)))
               (status_checks s + fuel) (queries s) (stop_checks s)).
Proof.
  revert s. induction fuel as [|fuel IH]; intros s Hramp.
  - cbn. rewrite app_nil_r, Nat.add_0_r. by destruct s.
  - rewrite poll_while_S. specialize (Hramp 0%nat) as Hfirst.
    rewrite Nat.add_0_r in Hfirst. rewrite Hfirst by lia. cbn zeta.
    rewrite IH; cbn [list_events dt files trace status_checks queries stop_checks].
    + rewrite <- app_assoc. do 2 f_equal. lia.
    + intros n Hn. replace (S (status_checks s) + n)%nat
        with (status_checks s + S n)%nat by lia. apply Hramp. lia.
Qed.

(** A poll that returns has seen a status without the pattern. *)
Lemma poll_while_done_inv pat fuel s s' :
  poll_while env cfg pat fuel s = Done tt s' ->
  exists n : nat, contains pat (status_reply env (status_checks s + n)) = false.
Proof.
  revert s. induction fuel as [|fuel IH]; intros s; [discriminate|].
  rewrite poll_while_S. cbn zeta.
  destruct (contains pat (status_reply env (status_checks s))) eqn:Hfirst.
  - intros Hpoll. apply IH in Hpoll as [n Hn]. cbn [status_checks] in Hn.
    exists (S n). by replace (status_checks s + S n)%nat
      with (S (status_checks s) + n)%nat by lia.
  - intros _. exists 0%nat. by rewrite Nat.add_0_r.
Qed.

(** Below any bound, either [p] holds throughout or it fails first somewhere. *)
Lemma first_false_below (p : nat -> bool) (n : nat) :
  (forall i : nat, (i < n)%nat -> p i = true)
  \/ (exists j : nat, (j < n)%nat /\ p j = false /\
        forall i : nat, (i < j)%nat -> p i = true).
Proof.
  induction n as [|n [Hall|(j & Hj & Hpj & Hbefore)]].
  - left. lia.
  - destruct (p n) eqn:Hpn.
    + left. intros i Hi. destruct (decide (i = n)) as [->|]; [done | apply Hall; lia].
    + right. exists n. split; [lia | done].
  - right. exists j. split; [lia | done].
Qed.

Lemma first_false (p : nat -> bool) (n : nat) :
  p n = false ->
  exists j : nat, p j = false /\ forall i : nat, (i < j)%nat -> p i = true.
Proof.
  intros Hn. destruct (first_false_below p (S n)) as [Hall|(j & _ & Hpj & Hbefore)].
  - rewrite Hall in Hn by lia. discriminate.
  - by exists j.
Qed.

(** *** One form for each method *)

Ltac unfold_monad :=
  unfold mbind, m_bind, bind, mret, m_ret, ret, raise, lift, emit,
    stop_queue_empty, scope_query, caen_status_check, get_dt, set_dt,
    append_event, dump_data.

Lemma get_timebase_eq s :
  get_timebase env s
  = let s1 := mkState (list_events s) (dt s) (files s)
                (trace s ++ [Query timebase_query])
                (status_checks s) (S (queries s)) (stop_checks s) in
    match read_timebase (query_reply env (queries s) timebase_query) with
    | Ok d => Done tt (mkState (list_events s) (NFloat d) (files s)
                         (trace s ++ [Query timebase_query])
                         (status_checks s) (S (queries s)) (stop_checks s))
    | Raise e => Raised e s1
    end.
Proof.
  unfold get_timebase. unfold_monad.
  by destruct (read_timebase (query_reply env (queries s) timebase_query)).
Qed.

Lemma get_events_loop_S (n : nat) s :
  get_events_loop env cfg (S n) s
  = let payload := command_payload (active_channels cfg) in
    if posted env (stop_checks s)
    then Done tt (mkState (list_events s) (dt s) (files s) (trace s)
                    (status_checks s) (queries s) (S (stop_checks s)))
    else
      match Parser.convert_to_vector (dt s) (query_reply env (queries s) payload) with
      | Ok event =>
          get_events_loop env cfg n
            (mkState (list_events s ++ [event]) (dt s) (files s)
               (trace s ++ [Query payload])
               (status_checks s) (S (queries s)) (S (stop_checks s)))
      | Raise e =>
          Raised e (mkState (list_events s) (dt s) (files s)
                      (trace s ++ [Query payload])
                      (status_checks s) (S (queries s)) (S (stop_checks s)))
      end.
Proof.
  cbv zeta. cbn [get_events_loop]. unfold_monad.
  destruct (posted env (stop_checks s)); [reflexivity|]. cbn [negb].
  cbn [list_events dt files trace status_checks queries stop_checks].
  by destruct (Parser.convert_to_vector (dt s) _).
Qed.

Lemma step_eq fuel volt s :
  step env cfg fuel volt s
  = match poll_while env cfg "RAMP UP" fuel
            (mkState (list_events s) (dt s) (files s)
               (trace s ++ [SetOutput (caen_channel cfg) volt; Sleep 5])
               (status_checks s) (queries s) (stop_checks s)) with
    | Done _ s1 =>
        match get_timebase env s1 with
        | Done _ s2 =>
            match get_events env cfg s2 with
            | Done _ s3 => dump_data cfg volt s3
            | Raised e s3 => Raised e s3
            | Polling s3 => Polling s3
            end
        | Raised e s2 => Raised e s2
        | Polling s2 => Polling s2
        end
    | Raised e s1 => Raised e s1
    | Polling s1 => Polling s1
    end.
Proof.
  unfold step. unfold mbind, m_bind, bind, emit.
  cbn [list_events dt files trace status_checks queries stop_checks].
  by rewrite <- app_assoc.
Qed.

Lemma sweep_cons fuel volt (rest : list string) s :
  sweep env cfg fuel (volt :: rest) s
  = let s1 := mkState (list_events s) (dt s) (files s) (trace s)
                (status_checks s) (queries s) (S (stop_checks s)) in
    if posted env (stop_checks s) then Done tt s1
    else match step env cfg fuel volt s1 with
         | Done _ s2 => sweep env cfg fuel rest s2
         | Raised e s2 => Raised e s2
         | Polling s2 => Polling s2
         end.
Proof.
  cbv zeta. cbn [sweep]. unfold mbind, m_bind, bind, stop_queue_empty.
  by destruct (posted env (stop_checks s)).
Qed.

Lemma shutdown_eq fuel s :
  shutdown env cfg fuel s
  = match poll_while env cfg "RAMP DOWN" fuel
            (mkState (list_events s) (dt s) (files s)
               (trace s ++ [SetOutput (caen_channel cfg) "0"])
               (status_checks s) (queries s) (stop_checks s)) with
    | Done _ s1 =>
        Done tt (mkState (list_events s1) (dt s1) (files s1)
                   (trace s1 ++ [ScopeClose; CaenClose])
                   (status_checks s1) (queries s1) (stop_checks s1))
    | Raised e s1 => Raised e s1
    | Polling s1 => Polling s1
    end.
Proof.
  unfold shutdown. unfold mbind, m_bind, bind, emit.
  destruct (poll_while _ _ _ _ _) as [[] s1|e s1|s1]; try reflexivity.
  cbn [list_events dt files trace status_checks queries stop_checks].
  by rewrite <- app_assoc.
Qed.

(** *** Only a status poll can fail to return *)

Lemma get_events_loop_not_polling (n : nat) s s' :
  get_events_loop env cfg n s <> Polling s'.
Proof.
  revert s. induction n as [|n IH]; intros s; [done|].
  rewrite get_events_loop_S. cbv zeta.
  destruct (posted env (stop_checks s)); [done|].
  destruct (Parser.convert_to_vector _ _); [apply IH | done].
Qed.

Lemma after_poll_not_polling volt s s' :
  match get_timebase env s with
  | Done _ s2 =>
      match get_events env cfg s2 with
      | Done _ s3 => dump_data cfg volt s3
      | Raised e s3 => Raised e s3
      | Polling s3 => Polling s3
      end
  | Raised e s2 => Raised e s2
  | Polling s2 => Polling s2
  end <> Polling s'.
Proof.
  rewrite get_timebase_eq. cbv zeta.
  destruct (read_timebase _); [|done].
  unfold get_events.
  destruct (get_events_loop env cfg _ _) as [[] s3|e s3|s3] eqn:Hloop; try done.
  by apply get_events_loop_not_polling in Hloop.
Qed.

(** C9. Both ramp waits are polls without a bound. A voltage step gets
    past its ramp-up wait (to the timebase query and the capture) for some
    amount of fuel if and only if some status check from the current one on
    answers without [RAMP UP], and the shutdown returns for some amount of
    fuel if and only if some status check answers without [RAMP DOWN]. When
    every status keeps the ramp text, then whatever the fuel the step is
    still polling, having sent no query to the oscilloscope, and the shutdown
    is still polling, having closed nothing: the wait neither times out nor
    raises. *)
Theorem ramp_waits_unbounded volt s :
  ((exists fuel, forall s', step env cfg fuel volt s <> Polling s')
   <-> (exists n : nat,
          contains "RAMP UP" (status_reply env (status_checks s + n)) = false))
  /\ ((exists fuel s', shutdown env cfg fuel s = Done tt s')
      <-> (exists n : nat,
             contains "RAMP DOWN" (status_reply env (status_checks s + n)) = false))
  /\ ((forall n : nat,
         contains "RAMP UP" (status_reply env (status_checks s + n)) = true) ->
      forall fuel, exists s',
        step env cfg fuel volt s = Polling s'
        /\ trace s' = trace s ++ [SetOutput (caen_channel cfg) volt; Sleep 5]
                        ++ replicate fuel (StatusCheck (caen_channel cfg)))
  /\ ((forall n : nat,
         contains "RAMP DOWN" (status_reply env (status_checks s + n)) = true) ->
      forall fuel, exists s',
        shutdown env cfg fuel s = Polling s'
        /\ trace s' = trace s ++ [SetOutput (caen_channel cfg) "0"]
                        ++ replicate fuel (StatusCheck (caen_channel cfg))).
Proof.
  repeat split.
  - intros [fuel Hpast]. rewrite step_eq in Hpast.
    destruct (first_false_below
                (fun n => contains "RAMP UP" (status_reply env (status_checks s + n))) fuel)
      as [Hall|(j & _ & Hj & _)]; [|by exists j].
    rewrite poll_while_stuck in Hpast by exact Hall. exfalso. eapply Hpast. reflexivity.
  - intros [n Hn].
    apply (first_false (fun n => contains "RAMP UP" (status_reply env (status_checks s + n))))
      in Hn as (j & Hj & Hbefore).
    exists (S j). intros s'. rewrite step_eq.
    rewrite (poll_while_clears _ j) by (done || lia). apply after_poll_not_polling.
  - intros (fuel & s' & Hdone). rewrite shutdown_eq in Hdone.
    destruct (poll_while env cfg "RAMP DOWN" fuel _) as [[] s1|e s1|s1] eqn:Hpoll;
      try discriminate.
    by apply poll_while_done_inv in Hpoll.
  - intros [n Hn].
    apply (first_false (fun n => contains "RAMP DOWN" (status_reply env (status_checks s + n))))
      in Hn as (j & Hj & Hbefore).
    exists (S j). eexists. rewrite shutdown_eq.
    rewrite (poll_while_clears _ j) by (done || lia). reflexivity.
  - intros Hramp fuel. eexists. rewrite step_eq.
    rewrite poll_while_stuck by (intros; apply Hramp). split; [reflexivity|].
    cbn [trace]. by rewrite <- app_assoc.
  - intros Hramp fuel. eexists. rewrite shutdown_eq.
    rewrite poll_while_stuck by (intros; apply Hramp). split; [reflexivity|].
    cbn [trace]. by rewrite <- app_assoc.
Qed.

(** *** Stopping *)

Lemma posted_at (t n : nat) :
  stop_posted_at env = Some t -> posted env n = (t <=? n)%nat.
Proof. unfold posted. by intros ->. Qed.

(** A capture during which the stop signal is first seen after the events
    [evs]: the loop returns with these events appended and nothing else. *)
Lemma get_events_loop_stopped (evs : list (Event F)) (n : nat) s :
  (length evs < n)%nat ->
  stop_posted_at env = Some (stop_checks s + length evs)%nat ->
  (forall (i : nat) (ev : Event F), evs !! i = Some ev ->
     Parser.convert_to_vector (dt s)
       (query_reply env (queries s + i) (command_payload (active_channels cfg)))
     = Ok ev) ->
  get_events_loop env cfg n s
  = Done tt (mkState (list_events s ++ evs) (dt s) (files s)
               (trace s ++ replicate (length evs)
                             (Query (command_payload (active_channels cfg))))
               (status_checks s) (queries s + length evs)
               (stop_checks s + S (length evs))).
Proof.
  revert n s. induction evs as [|ev evs IH]; intros [|n] s Hlen Hstop Hparse;
    cbn [length] in *; try lia.
  - rewrite get_events_loop_S. cbv zeta.
    rewrite (posted_at _ _ Hstop).
    destruct (Nat.leb_spec (stop_checks s + 0) (stop_checks s)); [|lia].
    cbn [replicate]. rewrite !app_nil_r. do 2 f_equal; lia.
  - rewrite get_events_loop_S. cbv zeta.
    rewrite (posted_at _ _ Hstop).
    destruct (Nat.leb_spec (stop_checks s + S (length evs)) (stop_checks s)); [lia|].
    specialize (Hparse 0%nat ev eq_refl) as Hfirst. rewrite Nat.add_0_r in Hfirst.
    rewrite Hfirst.
    rewrite IH; cbn [list_events dt files trace status_checks queries stop_checks].
    + rewrite <- !app_assoc. cbn [replicate app]. do 2 f_equal; lia.
    + lia.
    + rewrite Hstop. f_equal. lia.
    + intros i ev' Hev'. replace (S (queries s) + i)%nat with (queries s + S i)%nat by lia.
      by apply Hparse.
Qed.

(** Once the signal is posted the sweep loop runs no step. *)
Lemma sweep_stopped fuel (volts : list string) s :
  posted env (stop_checks s) = true ->
  exists n : nat,
    sweep env cfg fuel volts s
    = Done tt (mkState (list_events s) (dt s) (files s) (trace s)
                 (status_checks s) (queries s) n).
Proof.
  intros Hposted. destruct volts as [|volt rest].
  - exists (stop_checks s). by destruct s.
  - exists (S (stop_checks s)). by rewrite sweep_cons, Hposted.
Qed.

(** C3. The stop signal is posted while a step is capturing: the step's
    own check and the checks before its first [k] events find the queue
    empty, the next one does not, and [k] is less than [num_events]. Then,
    when the ramp-up wait ends and the replies parse, the sweep returns with
    exactly the [k] parsed events appended to the log and nothing else (no
    marker of an incomplete step), the dump of this step has been written,
    and the trace ends with the [k] capture queries: no voltage of [rest] is
    ever set. *)
Theorem stop_during_capture fuel volt (rest : list string) s (k j : nat) (d : F)
    (evs : list (Event F)) :
  stop_posted_at env = Some (stop_checks s + 1 + k)%nat ->
  (k < Z.to_nat (num_events cfg))%nat ->
  (j < fuel)%nat ->
  (forall i : nat, (i < j)%nat ->
     contains "RAMP UP" (status_reply env (status_checks s + i)) = true) ->
  contains "RAMP UP" (status_reply env (status_checks s + j)) = false ->
  read_timebase (query_reply env (queries s) timebase_query) = Ok d ->
  length evs = k ->
  (forall (i : nat) (ev : Event F), evs !! i = Some ev ->
     Parser.convert_to_vector (NFloat d)
       (query_reply env (queries s + 1 + i) (command_payload (active_channels cfg)))
     = Ok ev) ->
  exists s',
    sweep env cfg fuel (volt :: rest) s = Done tt s'
    /\ list_events s' = list_events s ++ evs
    /\ files s' = <[dump_path cfg volt := Writer.write_events (list_events s ++ evs)]> (files s)
    /\ trace s' = trace s ++ [SetOutput (caen_channel cfg) volt; Sleep 5]
                    ++ replicate (S j) (StatusCheck (caen_channel cfg))
                    ++ [Query timebase_query]
                    ++ replicate k (Query (command_payload (active_channels cfg))).
Proof.
  intros Hstop Hk Hfuel Hramp Hclear Htimebase Hlen Hparse. subst k.
  rewrite sweep_cons. cbv zeta. rewrite (posted_at _ _ Hstop).
  destruct (Nat.leb_spec (stop_checks s + 1 + length evs) (stop_checks s)); [lia|].
  rewrite step_eq.
  rewrite (poll_while_clears _ j) by done.
  rewrite get_timebase_eq. cbv zeta.
  cbn [list_events dt files trace status_checks queries stop_checks].
  rewrite Htimebase. unfold get_events.
  rewrite (get_events_loop_stopped evs);
    cbn [list_events dt files trace status_checks queries stop_checks].
  - unfold dump_data.
    cbn [list_events dt files trace status_checks queries stop_checks].
    edestruct (sweep_stopped fuel rest) as [n ->].
    + cbn [stop_checks]. rewrite (posted_at _ _ Hstop). apply Nat.leb_le. lia.
    + eexists. split; [reflexivity|].
      cbn [list_events dt files trace status_checks queries stop_checks].
      split; [done|]. split; [done|]. by rewrite <- !app_assoc.
  - done.
  - rewrite Hstop. f_equal. lia.
  - intros i ev Hev. replace (S (queries s) + i)%nat with (queries s + 1 + i)%nat by lia.
    by apply Hparse.
Qed.

Lemma init_eq fuel s :
  init env cfg fuel s
  = let status := status_reply env (status_checks s) in
    let opened := trace s ++ [CaenOpen (caen_ip cfg); ScopeOpen (scope_ip cfg);
                              StatusCheck (caen_channel cfg)]
                    ++ (if contains "ON" status then []
                        else [EnableOutput (caen_channel cfg) true]) in
    match sweep env cfg fuel (volt_list cfg)
            (mkState (list_events s) (NInt 0) (files s) opened
               (S (status_checks s)) (queries s) (stop_checks s)) with
    | Done _ s1 => shutdown env cfg fuel s1
    | Raised e s1 => Raised e s1
    | Polling s1 => Polling s1
    end.
Proof.
  cbv zeta. unfold init. unfold_monad.
  cbn [list_events dt files trace status_checks queries stop_checks].
  destruct (contains "ON" (status_reply env (status_checks s)));
    cbn [negb list_events dt files trace status_checks queries stop_checks];
    rewrite <- !app_assoc; reflexivity.
Qed.

(** C4. When the stop signal is already posted at the first check of the
    sweep loop, [__init__] sets no voltage of the list: after opening the two
    clients, checking the status and enabling the output if it was not on, the
    trace holds the shutdown sequence once and nothing else: set the output to
    ["0"], poll the status until [RAMP DOWN] is gone, close the oscilloscope,
    close the power supply. The log and the files are untouched. *)
Theorem stop_before_sweep fuel s (j : nat) :
  posted env (stop_checks s) = true ->
  (j < fuel)%nat ->
  (forall i : nat, (i < j)%nat ->
     contains "RAMP DOWN" (status_reply env (status_checks s + 1 + i)) = true) ->
  contains "RAMP DOWN" (status_reply env (status_checks s + 1 + j)) = false ->
  exists s',
    init env cfg fuel s = Done tt s'
    /\ trace s' = trace s
                    ++ [CaenOpen (caen_ip cfg); ScopeOpen (scope_ip cfg);
                        StatusCheck (caen_channel cfg)]
                    ++ (if contains "ON" (status_reply env (status_checks s)) then []
                        else [EnableOutput (caen_channel cfg) true])
                    ++ [SetOutput (caen_channel cfg) "0"]
                    ++ replicate (S j) (StatusCheck (caen_channel cfg))
                    ++ [ScopeClose; CaenClose]
    /\ list_events s' = list_events s
    /\ files s' = files s.
Proof.
  intros Hposted Hfuel Hramp Hclear. rewrite init_eq. cbv zeta.
  edestruct (sweep_stopped fuel (volt_list cfg)) as [n ->]; [exact Hposted|].
  cbn [list_events dt files trace status_checks queries stop_checks].
  rewrite shutdown_eq.
  rewrite (poll_while_clears _ j);
    cbn [list_events dt files trace status_checks queries stop_checks].
  - eexists. split; [reflexivity|].
    cbn [list_events dt files trace status_checks queries stop_checks].
    split; [|done]. by rewrite <- !app_assoc.
  - done.
  - intros i Hi. replace (S (status_checks s) + i)%nat
      with (status_checks s + 1 + i)%nat by lia. by apply Hramp.
  - by replace (S (status_checks s) + j)%nat with (status_checks s + 1 + j)%nat by lia.
Qed.

(** *** The event log *)

Lemma poll_while_log pat fuel s :
  list_events (final_state (poll_while env cfg pat fuel s)) = list_events s
  /\ files (final_state (poll_while env cfg pat fuel s)) = files s.
Proof.
  revert s. induction fuel as [|fuel IH]; intros s; [done|].
  rewrite poll_while_S. cbv zeta.
  destruct (contains pat _); [|done].
  destruct (IH (mkState (list_events s) (dt s) (files s)
                  (trace s ++ [StatusCheck (caen_channel cfg)])
                  (S (status_checks s)) (queries s) (stop_checks s))) as [-> ->].
  done.
Qed.

(** A capture only appends to the log and writes no file, however it ends. *)
Lemma get_events_loop_log (n : nat) s :
  exists evs : list (Event F),
    list_events (final_state (get_events_loop env cfg n s)) = list_events s ++ evs
    /\ files (final_state (get_events_loop env cfg n s)) = files s.
Proof.
  revert s. induction n as [|n IH]; intros s.
  - exists []. by rewrite app_nil_r.
  - rewrite get_events_loop_S. cbv zeta.
    destruct (posted env (stop_checks s)).
    { exists []. by rewrite app_nil_r. }
    destruct (Parser.convert_to_vector _ _) as [event|e].
    + destruct (IH (mkState (list_events s ++ [event]) (dt s) (files s)
                      (trace s ++ [Query (command_payload (active_channels cfg))])
                      (status_checks s) (S (queries s)) (S (stop_checks s))))
        as (evs & Hlog & Hfiles).
      exists (event :: evs). rewrite Hlog, Hfiles. cbn [list_events files].
      by rewrite <- app_assoc.
    + exists []. by rewrite app_nil_r.
Qed.








End DaqProperties.

(** ** The format of a dump and of the capture query *)

(** C5. The event whose slot 0 holds the samples [(0.0, 1.5)] and
    [(1e-09, 1.6)] is written as the block [0;CH1], [0.0,1.5], [1e-09,1.6]
    and two empty lines. In general a channel with samples gives the header
    [event_num;CH(channel_num + 1)], one [time,voltage] line for each sample
    and two line feeds; an absent channel gives nothing; and a dump replaces
    whatever the file [prefix_voltV] held by the text of the log. *)
Theorem dump_format :
  Writer.write_events (fo := Binary64.binary64)
    [[Some [(NFloat 0%float, 1.5%float);
            (NFloat 0x1.12e0be826d695p-30%float, 0x1.999999999999ap+0%float)];
      None; None; None]]
  = "0;CH1" +:+ Writer.NL +:+ "0.0,1.5" +:+ Writer.NL +:+ "1e-09,1.6" +:+ Writer.NL
    +:+ Writer.NL +:+ Writer.NL
  /\ (forall (F : Type) (fo : FloatOps F) (event_num channel_num : nat) (out : string)
        (entry : Sample F) (channel : Waveform F),
      Writer.write_channel event_num out (channel_num, Some (entry :: channel))
      = out +:+ (Py.str_int (Z.of_nat event_num) +:+ ";CH"
                 +:+ Py.str_int (Z.of_nat channel_num + 1) +:+ Writer.NL)
            +:+ Writer.sample_lines (entry :: channel) +:+ Writer.NL +:+ Writer.NL)
  /\ (forall (F : Type) (fo : FloatOps F) (event_num channel_num : nat) (out : string),
      Writer.write_channel event_num out (channel_num, None) = out)
  /\ (forall (F : Type) (fo : FloatOps F) (cfg : Daq.Config) (volt : string)
        (s : Daq.State F),
      exists s' : Daq.State F,
        Daq.dump_data cfg volt s = Daq.Done tt s'
        /\ Daq.files s'
           = <[Daq.output_filename cfg +:+ "_" +:+ volt +:+ "V"
               := Writer.write_events (Daq.list_events s)]> (Daq.files s)).
Proof.
  split; [vm_compute; reflexivity|]. split; [|split].
  - intros. apply write_channel_present.
  - reflexivity.
  - intros. eexists. split; reflexivity.
Qed.

(** C10. For a mask of four channels the capture query is the
    concatenation of [C<i>:INSPECT? SIMPLE;] over the indices [i] from 0 to 3
    whose channel is active, in increasing order. The index is zero-based:
    the first channel alone is asked for as [C0], whereas the parser files
    the marker [C1] under slot 0 and the writer labels slot 0 as [CH1]. *)
Theorem command_payload_zero_based (b0 b1 b2 b3 : bool) :
  Daq.command_payload [b0; b1; b2; b3]
  = String.concat ""
      (map (fun i : nat => "C" +:+ Py.str_int (Z.of_nat i) +:+ ":INSPECT? SIMPLE;")
         (filter (fun i : nat => [b0; b1; b2; b3] !! i = Some true) [0; 1; 2; 3]%nat))
  /\ Daq.command_payload [true; false; false; false] = "C0:INSPECT? SIMPLE;"
  /\ Parser.convert_to_vector (fo := Binary64.binary64) Demo.dt_ns (Some "C1:INSPECT 1.5")
     = Py.Ok [Some [(NFloat 0%float, 1.5%float)]; None; None; None]
  /\ Writer.header 0 0 = "0;CH1" +:+ Writer.NL.
Proof.
  split; [by destruct b0, b1, b2, b3|]. repeat split; vm_compute; reflexivity.
Qed.

(** ** The controller on the example run *)

Section DaqExamples.
Import Py Daq Binary64 Demo.
Local Existing Instance binary64.

Lemma stop_during_capture_witness :
  exists s' : State float,
    sweep (env statuses (Some 2%nat)) cfg 5 ("100" :: ["200"]) opened = Done tt s'
    /\ list_events s' = list_events opened ++ [event_short]
    /\ files s' = <[dump_path cfg "100"
                   := Writer.write_events (list_events opened ++ [event_short])]>
                    (files opened)
    /\ trace s' = trace opened ++ [SetOutput (caen_channel cfg) "100"; Sleep 5]
                    ++ replicate 2 (StatusCheck (caen_channel cfg))
                    ++ [Query timebase_query]
                    ++ replicate 1 (Query (command_payload (active_channels cfg))).
Proof.
  apply (stop_during_capture (env statuses (Some 2%nat)) cfg 5 "100" ["200"] opened
           1 1 0x1.12e0be826d695p-30%float [event_short]).
  - reflexivity.
  - vm_compute. lia.
  - lia.
  - intros [|i] Hi; [reflexivity | lia].
  - reflexivity.
  - vm_compute. reflexivity.
  - reflexivity.
  - intros [|i] ev Hev; [|destruct i; discriminate].
    injection Hev as <-. vm_compute. reflexivity.
Defined.

Lemma stop_before_sweep_witness :
  exists s' : State float,
    init (env statuses_down (Some 0%nat)) cfg 5 start = Done tt s'
    /\ trace s' = trace start
                    ++ [CaenOpen (caen_ip cfg); ScopeOpen (scope_ip cfg);
                        StatusCheck (caen_channel cfg)]
                    ++ (if contains "ON" (status_reply (env statuses_down (Some 0%nat))
                                            (status_checks start))
                        then [] else [EnableOutput (caen_channel cfg) true])
                    ++ [SetOutput (caen_channel cfg) "0"]
                    ++ replicate 3 (StatusCheck (caen_channel cfg))
                    ++ [ScopeClose; CaenClose]
    /\ list_events s' = list_events start
    /\ files s' = files start.
Proof.
  apply (stop_before_sweep (env statuses_down (Some 0%nat)) cfg 5 start 2).
  - reflexivity.
  - lia.
  - intros [|[|i]] Hi; [reflexivity | reflexivity | lia].
  - reflexivity.
Defined.

Lemma ramp_waits_unbounded_witness :
  exists fuel : nat,
    forall s' : State float, step (env statuses None) cfg fuel "100" opened <> Polling s'.
Proof.
  apply (proj2 (proj1 (ramp_waits_unbounded (env statuses None) cfg "100" opened))).
  exists 1%nat. reflexivity.
Defined.


End DaqExamples.

(** * Further properties *)

(** ** More on the parser *)

Section ParserInvariants.
Import Py Parser View.
Context {F : Type} {fo : FloatOps F}.
Implicit Types (dt : Num F) (st : Scan F) (entry values : string).

Lemma setitem_ok_inv {A : Type} (l l' : list A) (i : Z) (x : A) :
  setitem l i x = Ok l' ->
  exists k : nat, (k < length l)%nat /\ l' = <[k := x]> l.
Proof.
  unfold setitem. intros Hset.
  destruct ((0 <=? i) && (i <? Z.of_nat (length l))) eqn:Hpos.
  - injection Hset as <-. apply andb_true_iff in Hpos as [?%Z.leb_le ?%Z.ltb_lt].
    exists (Z.to_nat i). split; [lia | done].
  - destruct ((- Z.of_nat (length l) <=? i) && (i <? 0)) eqn:Hneg; [|discriminate].
    injection Hset as <-. apply andb_true_iff in Hneg as [?%Z.leb_le ?%Z.ltb_lt].
    exists (Z.to_nat (Z.of_nat (length l) + i)). split; [lia | done].
Qed.

Lemma timed_nil dt : timed dt [].
Proof. intros i t v Hi. destruct i; discriminate. Qed.

Lemma timed_snoc dt (wf : Waveform F) (v : F) :
  timed dt wf -> timed dt (wf ++ [(num_mul_int dt (Z.of_nat (length wf)), v)]).
Proof.
  unfold timed, Waveform, Sample in *. intros Hwf i t v' Hi.
  destruct (decide (i < length wf)%nat) as [Hlt|Hge].
  - rewrite lookup_app_l in Hi by done. by apply (Hwf i t v').
  - rewrite lookup_app_r in Hi by lia.
    destruct (i - length wf)%nat as [|j] eqn:Hj; [|by destruct j].
    injection Hi as <- <-. do 2 f_equal. lia.
Qed.

Lemma scan_inv_init dt : scan_inv dt scan_init.
Proof.
  repeat split; try apply timed_nil. cbn. repeat constructor; discriminate.
Qed.

Lemma scan_entry_inv dt st st' entry :
  scan_entry dt st entry = Ok st' -> scan_inv dt st -> scan_inv dt st'.
Proof.
  intros Hscan (Hlen & Hidx & Htimed & Hslots). unfold scan_entry in Hscan.
  destruct (contains colon entry).
  - destruct (0 <=? cur_channel st).
    + destruct (setitem _ _ _) as [l|e] eqn:Hset; [|discriminate]. cbn in Hscan.
      destruct (int_of_digits _) as [n|e]; [|discriminate]. injection Hscan as <-.
      apply setitem_ok_inv in Hset as (k & Hk & ->).
      repeat split; cbn; try apply timed_nil.
      * by rewrite length_insert.
      * apply Forall_insert; [done|]. by intros wf [= <-].
    + cbn in Hscan. destruct (int_of_digits _) as [n|e]; [|discriminate].
      injection Hscan as <-. by repeat split.
  - destruct (float_of_str (strip entry)) as [volt|]; injection Hscan as <-;
      [|by repeat split].
    repeat split; cbn; try done.
    + rewrite length_app. cbn. lia.
    + rewrite Hidx. by apply timed_snoc.
Qed.

Lemma for_each_scan_inv dt (entries : list string) st st' :
  for_each (scan_entry dt) entries st = Ok st' -> scan_inv dt st -> scan_inv dt st'.
Proof.
  revert st. induction entries as [|entry entries IH]; intros st; cbn.
  - by intros [= <-].
  - destruct (scan_entry dt st entry) as [st1|e] eqn:Hentry; [|discriminate]. cbn.
    intros Hrest Hinv. apply (IH st1 Hrest). by apply (scan_entry_inv dt st st1 entry).
Qed.

(** Everything that holds of a returned event. *)
Lemma convert_to_vector_inv dt (values : option string) (ev : Event F) :
  convert_to_vector dt values = Ok ev ->
  length ev = 4%nat
  /\ Forall (fun slot => forall wf, slot = Some wf -> timed dt wf) ev.
Proof.
  destruct values as [v|].
  - rewrite convert_to_vector_tokens.
    destruct (for_each (scan_entry dt) (tokens v) scan_init) as [st|e] eqn:Hscan;
      [|discriminate]. cbn.
    apply for_each_scan_inv in Hscan as (Hlen & _ & Htimed & Hslots);
      [|apply scan_inv_init].
    intros Hset. apply setitem_ok_inv in Hset as (k & Hk & ->).
    split; [by rewrite length_insert|].
    apply Forall_insert; [done|]. by intros wf [= <-].
  - intros [= <-]. split; [done|]. repeat constructor; discriminate.
Qed.

(** X1. Whatever the input, an event that [convert_to_vector] returns has
    exactly four slots. *)
Theorem convert_four_slots dt (values : option string) (ev : Event F) :
  convert_to_vector dt values = Ok ev -> length ev = 4%nat.
Proof. intros Hev. by apply convert_to_vector_inv in Hev as [Hlen _]. Qed.

(** X2. Whatever the input, in an event that [convert_to_vector] returns
    the [i]-th sample of every channel that is present carries the time
    [dt * i]: within each waveform the sample index runs from 0 without a
    gap, also where entries were skipped or preceded the first marker. *)
Theorem convert_sample_times dt (values : option string) (ev : Event F)
    (slot i : nat) (wf : Waveform F) (t : Num F) (v : F) :
  convert_to_vector dt values = Ok ev ->
  ev !! slot = Some (Some wf) ->
  wf !! i = Some (t, v) ->
  t = num_mul_int dt (Z.of_nat i).
Proof.
  intros Hev Hslot Hi. apply convert_to_vector_inv in Hev as [_ Htimed].
  rewrite Forall_lookup in Htimed. by apply (Htimed slot (Some wf) Hslot wf eq_refl i t v).
Qed.

End ParserInvariants.

Section ParserEdges.
Import Py Parser View.
Context {F : Type} {fo : FloatOps F}.
Implicit Types (dt : Num F) (st : Scan F) (entry values : string).

(** X3. A marker without any digit is never accepted: when the entries
    of a response contain one, [convert_to_vector] raises, and the exception is
    the [ValueError] of [int('')] when no marker precedes it. *)
Theorem marker_without_digit_raises dt values (pre post : list string) (m : string) :
  tokens values = pre ++ m :: post ->
  contains colon m = true ->
  sub_non_digits m = EmptyString ->
  (exists e : Exn, convert_to_vector dt (Some values) = Raise e)
  /\ (Forall plain pre -> convert_to_vector dt (Some values) = Raise ValueError).
Proof.
  intros Htokens Hcolon Hdigits.
  rewrite convert_to_vector_tokens, Htokens, for_each_app. split.
  - destruct (for_each (scan_entry dt) pre scan_init) as [st|e]; cbn; [|by exists e].
    unfold scan_entry. rewrite Hcolon, Hdigits.
    destruct (0 <=? cur_channel st); cbn; [|by exists ValueError].
    destruct (setitem _ _ _) as [l|e]; cbn; [by exists ValueError | by exists e].
  - intros Hplain. rewrite scan_plain by done. cbn.
    unfold scan_entry. by rewrite Hcolon, Hdigits.
Qed.

(** With the current channel beyond the four slots, an entry can only
    leave the scan as it is, add a sample, or raise [IndexError]. *)
Lemma scan_entry_beyond_slots dt st entry :
  4 <= cur_channel st ->
  length (list_channel_wfms st) = 4%nat ->
  scan_entry dt st entry = Raise IndexError
  \/ exists st',
       scan_entry dt st entry = Ok st'
       /\ cur_channel st' = cur_channel st
       /\ length (list_channel_wfms st') = 4%nat.
Proof.
  intros Hcur Hlen. unfold scan_entry. destruct (contains colon entry).
  - left. unfold setitem. rewrite Hlen.
    destruct (Z.leb_spec 0 (cur_channel st)); [|lia].
    destruct (Z.ltb_spec (cur_channel st) (Z.of_nat 4)); [lia|].
    destruct (Z.ltb_spec (cur_channel st) 0); [lia|].
    cbn [andb]. rewrite andb_false_r. reflexivity.
  - right. destruct (float_of_str (strip entry)) as [volt|]; by eexists.
Qed.

Lemma scan_beyond_slots dt (entries : list string) st :
  4 <= cur_channel st ->
  length (list_channel_wfms st) = 4%nat ->
  for_each (scan_entry dt) entries st = Raise IndexError
  \/ exists st',
       for_each (scan_entry dt) entries st = Ok st'
       /\ cur_channel st' = cur_channel st
       /\ length (list_channel_wfms st') = 4%nat.
Proof.
  revert st. induction entries as [|entry entries IH]; intros st Hcur Hlen; cbn.
  - right. by exists st.
  - destruct (scan_entry_beyond_slots dt st entry Hcur Hlen)
      as [->|(st1 & -> & Hcur1 & Hlen1)]; cbn; [by left|].
    rewrite <- Hcur1 in Hcur. rewrite <- Hcur1. by apply IH.
Qed.

Lemma setitem_raises {A : Type} (l : list A) (i : Z) (x : A) (e : Exn) :
  setitem l i x = Raise e -> e = IndexError.
Proof. unfold setitem. repeat case_match; congruence. Qed.

(** A marker of channel [n] either raises [IndexError], when the current
    channel has no slot, or selects the channel [n - 1]. *)
Lemma scan_entry_marker dt st (m : string) (n : Z) :
  marker_of m n ->
  length (list_channel_wfms st) = 4%nat ->
  scan_entry dt st m = Raise IndexError
  \/ exists st',
       scan_entry dt st m = Ok st'
       /\ cur_channel st' = n - 1
       /\ length (list_channel_wfms st') = 4%nat.
Proof.
  intros [Hcolon Hint] Hlen. unfold scan_entry. rewrite Hcolon, Hint.
  destruct (0 <=? cur_channel st).
  - destruct (setitem (list_channel_wfms st) _ _) as [l|e] eqn:Hset; cbn.
    + right. eexists. split; [reflexivity|]. cbn. split; [done|].
      apply setitem_ok_inv in Hset as (k & Hk & ->). by rewrite length_insert.
    + left. by rewrite (setitem_raises _ _ _ _ Hset).
  - right. by eexists.
Qed.

(** X4. A marker whose channel number is above 4 makes the whole
    conversion fail with [IndexError], whatever follows it, when the entries
    before it were scanned without an exception. *)
Theorem channel_above_four_raises dt values (pre post : list string) (m : string)
    (n : Z) st :
  tokens values = pre ++ m :: post ->
  for_each (scan_entry dt) pre scan_init = Ok st ->
  marker_of m n ->
  5 <= n ->
  convert_to_vector dt (Some values) = Raise IndexError.
Proof.
  intros Htokens Hpre Hm Hn.
  rewrite convert_to_vector_tokens, Htokens, for_each_app, Hpre. cbn.
  apply for_each_scan_inv in Hpre as (Hlen & _); [|apply scan_inv_init].
  destruct (scan_entry_marker dt st m n Hm Hlen) as [->|(st1 & -> & Hcur1 & Hlen1)];
    cbn; [done|].
  destruct (scan_beyond_slots dt post st1) as [->|(st2 & -> & Hcur2 & Hlen2)];
    cbn; try done; try lia.
  unfold setitem. rewrite Hlen2, Hcur2, Hcur1.
  destruct (Z.leb_spec 0 (n - 1)); [|lia].
  destruct (Z.ltb_spec (n - 1) (Z.of_nat 4)); [lia|].
  destruct (Z.ltb_spec (n - 1) 0); [lia|].
  cbn [andb]. rewrite andb_false_r. reflexivity.
Qed.

Lemma samples_from_app dt (i0 : Z) (vs vs' : list F) :
  samples_from dt i0 vs ++ samples_from dt (i0 + Z.of_nat (length vs)) vs'
  = samples_from dt i0 (vs ++ vs').
Proof.
  revert i0. induction vs as [|v vs IH]; intros i0; cbn [samples_from app length].
  - by rewrite Z.add_0_r.
  - f_equal. rewrite <- IH. do 2 f_equal. lia.
Qed.

(** X5. Numeric entries ahead of the first marker are not dropped: the
    first marker restarts neither the waveform nor the sample index, so they
    become the first samples of the channel it names. *)
Theorem entries_before_first_marker dt values (pre ts : list string) (m : string)
    (a : Z) :
  tokens values = pre ++ m :: ts ->
  Forall plain pre -> Forall plain ts ->
  marker_of m a ->
  1 <= a <= 4 ->
  convert_to_vector dt (Some values)
  = Ok (<[Z.to_nat (a - 1) := Some (samples dt (voltages pre ++ voltages ts))]>
          (replicate 4 None)).
Proof.
  intros Htokens Hpre Hts Hm Ha.
  rewrite convert_to_vector_tokens, Htokens, for_each_app, scan_plain by done. cbn.
  rewrite (scan_entry_first_marker _ _ _ a) by (done || cbn; lia). cbn.
  rewrite scan_plain by done. cbn. unfold setitem. cbn [length].
  destruct (Z.leb_spec 0 (a - 1)); [|lia].
  destruct (Z.ltb_spec (a - 1) (Z.of_nat 4)); [|lia]. cbn [andb].
  unfold samples. by rewrite samples_from_app.
Qed.

(** X6. A marker with the channel number 0 selects the index [-1]: the
    samples that follow it are filed under the last slot, the one of channel
    4. (The capture query itself counts the channels from [C0].) *)
Theorem channel_zero_marker dt values (m : string) (ts : list string) :
  tokens values = m :: ts ->
  marker_of m 0 ->
  Forall plain ts ->
  convert_to_vector dt (Some values)
  = Ok [None; None; None; Some (samples dt (voltages ts))].
Proof.
  intros Htokens Hm Hts.
  rewrite convert_to_vector_tokens, Htokens. cbn [for_each].
  rewrite (scan_entry_first_marker _ _ _ 0) by (done || cbn; lia). cbn.
  by rewrite scan_plain by done.
Qed.

(** X7. When the same channel is named twice, the second region
    replaces the first: only the samples after the last marker of a channel
    are returned for it. *)
Theorem repeated_channel_keeps_last dt values (m m' : string) (ts ts' : list string)
    (a : Z) :
  tokens values = m :: ts ++ m' :: ts' ->
  marker_of m a -> marker_of m' a ->
  Forall plain ts -> Forall plain ts' ->
  1 <= a <= 4 ->
  convert_to_vector dt (Some values)
  = Ok (<[Z.to_nat (a - 1) := Some (samples dt (voltages ts'))]> (replicate 4 None)).
Proof.
  intros Htokens Hm Hm' Hts Hts' Ha.
  rewrite (convert_two_markers dt values m m' a a ts ts') by done.
  unfold setitem. rewrite length_insert. cbn [length replicate].
  destruct (Z.leb_spec 0 (a - 1)); [|lia].
  destruct (Z.ltb_spec (a - 1) (Z.of_nat 4)); [|lia]. cbn [andb].
  by rewrite list_insert_insert_eq.
Qed.

(** *** Line feeds and spaces *)

Lemma split_nonempty (c : ascii) (s : string) :
  exists (w : string) (ws : list string), split c s = w :: ws.
Proof.
  destruct s as [|a s]; cbn; [by eexists _, _|].
  destruct (Ascii.eqb a c); [by eexists _, _|].
  destruct (split c s); by eexists _, _.
Qed.

Lemma tokens_as_split values : tokens values = split SP (replace_char LF SP values).
Proof.
  unfold tokens. induction values as [|a v IH]; [done|].
  cbn [split replace_char].
  destruct (Ascii.eqb_spec a LF) as [->|Ha].
  - cbn. by rewrite IH.
  - destruct (split_nonempty LF v) as (w & ws & Hv). rewrite Hv in *.
    cbn [flat_map] in *. cbn [split].
    destruct (Ascii.eqb_spec a SP) as [->|Ha'].
    + cbn. by rewrite IH.
    + rewrite <- IH. destruct (split_nonempty SP w) as (h & t & ->). done.
Qed.

Lemma replace_char_twice (a b : ascii) (s : string) :
  a <> b -> replace_char a b (replace_char a b s) = replace_char a b s.
Proof.
  intros Hab. induction s as [|c s IH]; [done|]. cbn. rewrite IH. f_equal.
  destruct (Ascii.eqb_spec c a) as [->|Hc].
  - by destruct (Ascii.eqb_spec b a) as [->|].
  - by destruct (Ascii.eqb_spec c a).
Qed.

(** X8. The parser does not see lines: replacing every line feed of a
    response by a space leaves the result unchanged, exception included. *)
Theorem line_feeds_as_spaces dt values :
  convert_to_vector dt (Some (replace_char LF SP values))
  = convert_to_vector dt (Some values).
Proof.
  rewrite !convert_to_vector_tokens, !tokens_as_split.
  by rewrite replace_char_twice.
Qed.

(** *** The timebase only sets the times *)

Lemma event_voltages_insert (l : list (option (Waveform F))) (k : nat) (wf : Waveform F) :
  event_voltages (<[k := Some wf]> l) = <[k := Some (map snd wf)]> (event_voltages l).
Proof. unfold event_voltages. by rewrite list_fmap_insert. Qed.

Lemma setitem_same_voltages (l l' : list (option (Waveform F))) (i : Z)
    (wf wf' : Waveform F) :
  event_voltages l = event_voltages l' ->
  map snd wf = map snd wf' ->
  on_result event_voltages (setitem l i (Some wf))
  = on_result event_voltages (setitem l' i (Some wf')).
Proof.
  intros Hl Hwf. unfold setitem.
  assert (length l = length l') as <-.
  { apply (f_equal length) in Hl. unfold event_voltages in Hl.
    by rewrite !length_map in Hl. }
  repeat case_match; cbn; try done; by rewrite !event_voltages_insert, Hl, Hwf.
Qed.

Lemma scan_entry_same_voltages dt dt' st st' entry :
  same_voltages st st' ->
  match scan_entry dt st entry, scan_entry dt' st' entry with
  | Ok st1, Ok st1' => same_voltages st1 st1'
  | Raise e, Raise e' => e = e'
  | _, _ => False
  end.
Proof.
  intros (Hslots & Hcur & Hwf). unfold scan_entry. rewrite <- Hcur.
  destruct (contains colon entry).
  - destruct (0 <=? cur_channel st).
    + pose proof (setitem_same_voltages _ _ (cur_channel st) _ _ Hslots Hwf) as Hset.
      destruct (setitem (list_channel_wfms st) _ _) as [l|e],
               (setitem (list_channel_wfms st') _ _) as [l'|e']; cbn in *;
        try discriminate; [|congruence].
      injection Hset as Hl.
      destruct (int_of_digits _); cbn; [by repeat split | done].
    + cbn. destruct (int_of_digits _); cbn; [by repeat split | done].
  - destruct (float_of_str (strip entry)); cbn; [|by repeat split].
    repeat split; try done. cbn [waveform]. rewrite !map_app. f_equal. exact Hwf.
Qed.

Lemma for_each_same_voltages dt dt' (entries : list string) st st' :
  same_voltages st st' ->
  match for_each (scan_entry dt) entries st, for_each (scan_entry dt') entries st' with
  | Ok st1, Ok st1' => same_voltages st1 st1'
  | Raise e, Raise e' => e = e'
  | _, _ => False
  end.
Proof.
  revert st st'. induction entries as [|entry entries IH]; intros st st' Hsame; cbn.
  - done.
  - pose proof (scan_entry_same_voltages dt dt' st st' entry Hsame) as Hentry.
    destruct (scan_entry dt st entry) as [st1|e],
             (scan_entry dt' st' entry) as [st1'|e']; cbn; try done.
    by apply IH.
Qed.

(** X9. The timebase only sets the times: with two timebases the same
    response gives the same exception, or two events with the same voltages in
    the same slots. *)
Theorem timebase_only_sets_times dt dt' (values : option string) :
  on_result event_voltages (convert_to_vector dt values)
  = on_result event_voltages (convert_to_vector dt' values).
Proof.
  destruct values as [v|]; [|done].
  rewrite !convert_to_vector_tokens.
  pose proof (for_each_same_voltages dt dt' (tokens v) scan_init scan_init) as Hscan.
  destruct (for_each (scan_entry dt) (tokens v) scan_init) as [st|e],
           (for_each (scan_entry dt') (tokens v) scan_init) as [st'|e']; cbn;
    try (by destruct Hscan); try (f_equal; by apply Hscan).
  destruct Hscan as (Hslots & Hcur & Hwf); [done|].
  rewrite <- Hcur. by apply setitem_same_voltages.
Qed.

End ParserEdges.

(** ** More on the controller *)

Section RunTraces.
Import Py Daq Run.
Context {F : Type} {fo : FloatOps F}.
Variable env : Env.
Variable cfg : Config.
Implicit Types (s : State F) (fuel : nat) (pat volt : string) (t : list Command).

Lemma quiet_nil : quiet [].
Proof. done. Qed.

Lemma quiet_app t1 t2 : quiet t1 -> quiet t2 -> quiet (t1 ++ t2).
Proof.
  unfold quiet, set_outputs, closes. intros [H1 H2] [H3 H4].
  by rewrite !omap_app, H1, H2, H3, H4.
Qed.

Lemma closes_app t1 t2 : closes (t1 ++ t2) = closes t1 ++ closes t2.
Proof. apply omap_app. Qed.

Lemma set_outputs_app t1 t2 : set_outputs (t1 ++ t2) = set_outputs t1 ++ set_outputs t2.
Proof. apply omap_app. Qed.

Lemma quiet_status_checks (k : nat) (channel : string) :
  quiet (replicate k (StatusCheck channel)).
Proof. induction k as [|k IH]; [done|]. by apply (quiet_app [_]). Qed.

Lemma quiet_queries (k : nat) (command : string) : quiet (replicate k (Query command)).
Proof. induction k as [|k IH]; [done|]. by apply (quiet_app [_]). Qed.

(** However a poll ends, it has added status checks only. *)
Lemma poll_while_trace pat fuel s :
  exists k : nat,
    trace (final_state (poll_while env cfg pat fuel s))
    = trace s ++ replicate k (StatusCheck (caen_channel cfg)).
Proof.
  revert s. induction fuel as [|fuel IH]; intros s.
  - exists 0%nat. cbn. by rewrite app_nil_r.
  - rewrite poll_while_S. cbv zeta. destruct (contains pat _).
    + destruct (IH (mkState (list_events s) (dt s) (files s)
                      (trace s ++ [StatusCheck (caen_channel cfg)])
                      (S (status_checks s)) (queries s) (stop_checks s))) as [k Hk].
      exists (S k). rewrite Hk. cbn [trace]. by rewrite <- app_assoc.
    + by exists 1%nat.
Qed.

(** However a capture ends, it has added capture queries only. *)
Lemma get_events_loop_trace (n : nat) s :
  exists k : nat,
    trace (final_state (get_events_loop env cfg n s))
    = trace s ++ replicate k (Query (command_payload (active_channels cfg))).
Proof.
  revert s. induction n as [|n IH]; intros s.
  - exists 0%nat. cbn. by rewrite app_nil_r.
  - rewrite get_events_loop_S. cbv zeta. destruct (posted env (stop_checks s)).
    { exists 0%nat. cbn. by rewrite app_nil_r. }
    destruct (Parser.convert_to_vector _ _) as [event|e]; [|by exists 1%nat].
    destruct (IH (mkState (list_events s ++ [event]) (dt s) (files s)
                    (trace s ++ [Query (command_payload (active_channels cfg))])
                    (status_checks s) (S (queries s)) (S (stop_checks s)))) as [k Hk].
    exists (S k). rewrite Hk. cbn [trace]. by rewrite <- app_assoc.
Qed.

(** However a step ends, it has set its voltage once and has otherwise
    only checked the status and queried the oscilloscope. *)
Lemma step_trace fuel volt s :
  exists t,
    trace (final_state (step env cfg fuel volt s))
    = trace s ++ SetOutput (caen_channel cfg) volt :: Sleep 5 :: t
    /\ quiet t.
Proof.
  rewrite step_eq.
  destruct (poll_while_trace "RAMP UP" fuel
              (mkState (list_events s) (dt s) (files s)
                 (trace s ++ [SetOutput (caen_channel cfg) volt; Sleep 5])
                 (status_checks s) (queries s) (stop_checks s))) as [k Hpoll].
  cbn [trace] in Hpoll. rewrite <- app_assoc in Hpoll. cbn [app] in Hpoll.
  destruct (poll_while env cfg "RAMP UP" fuel _) as [[] s1|e s1|s1];
    cbn [final_state] in Hpoll;
    try (eexists; split; [exact Hpoll | apply quiet_status_checks]).
  rewrite get_timebase_eq. cbv zeta.
  destruct (read_timebase _) as [d|e]; cbn [final_state trace].
  2:{ exists (replicate k (StatusCheck (caen_channel cfg)) ++ [Query timebase_query]).
      rewrite Hpoll, <- app_assoc. split; [done|].
      apply quiet_app; [apply quiet_status_checks | done]. }
  unfold get_events.
  destruct (get_events_loop_trace (Z.to_nat (num_events cfg))
              (mkState (list_events s1) (NFloat d) (files s1)
                 (trace s1 ++ [Query timebase_query])
                 (status_checks s1) (S (queries s1)) (stop_checks s1))) as [k' Hloop].
  cbn [trace] in Hloop.
  exists (replicate k (StatusCheck (caen_channel cfg)) ++ [Query timebase_query]
          ++ replicate k' (Query (command_payload (active_channels cfg)))).
  split.
  - destruct (get_events_loop env cfg _ _) as [[] s3|e s3|s3];
      cbn [final_state dump_data trace] in *;
      rewrite Hloop, Hpoll, <- !app_assoc; done.
  - apply quiet_app; [apply quiet_status_checks|].
    apply (quiet_app [_]); [done | apply quiet_queries].
Qed.

Lemma set_outputs_step volt t (channel : string) :
  quiet t -> set_outputs (SetOutput channel volt :: Sleep 5 :: t) = [volt].
Proof. intros [Ht _]. cbn. unfold set_outputs in Ht. by rewrite Ht. Qed.

Lemma closes_step volt t (channel : string) :
  quiet t -> closes (SetOutput channel volt :: Sleep 5 :: t) = [].
Proof. intros [_ Ht]. cbn. unfold closes in Ht. by rewrite Ht. Qed.

(** However the sweep loop ends, the voltages it has set are the first
    [k] of its list, in order, at least one when it does not return, and it
    has closed nothing. *)
Lemma sweep_trace fuel (volts : list string) s :
  exists t (k : nat),
    trace (final_state (sweep env cfg fuel volts s)) = trace s ++ t
    /\ closes t = []
    /\ set_outputs t = take k volts
    /\ (k <= length volts)%nat
    /\ ((forall s', sweep env cfg fuel volts s <> Done tt s') -> (1 <= k)%nat).
Proof.
  revert s. induction volts as [|volt rest IH]; intros s.
  - exists [], 0%nat. cbn. rewrite app_nil_r. repeat split; try done.
    intros Hnot. by destruct (Hnot s).
  - rewrite sweep_cons. cbv zeta. destruct (posted env (stop_checks s)).
    { exists [], 0%nat. cbn. rewrite app_nil_r. repeat split; try done; try lia.
      intros Hnot. by edestruct Hnot. }
    destruct (step_trace fuel volt
                (mkState (list_events s) (dt s) (files s) (trace s)
                   (status_checks s) (queries s) (S (stop_checks s))))
      as (t1 & Ht1 & Hquiet).
    cbn [trace] in Ht1.
    destruct (step env cfg fuel volt _) as [[] s2|e s2|s2]; cbn [final_state] in *.
    + destruct (IH s2) as (t2 & k & Ht2 & Hcloses & Houts & Hk & Hnot).
      exists ((SetOutput (caen_channel cfg) volt :: Sleep 5 :: t1) ++ t2), (S k).
      rewrite Ht2, Ht1, <- app_assoc. split; [done|].
      unfold closes, set_outputs in *. rewrite !omap_app.
      fold (closes (SetOutput (caen_channel cfg) volt :: Sleep 5 :: t1)).
      fold (set_outputs (SetOutput (caen_channel cfg) volt :: Sleep 5 :: t1)).
      rewrite closes_step, set_outputs_step, Hcloses, Houts by done.
      repeat split; try done; cbn; lia.
    + exists (SetOutput (caen_channel cfg) volt :: Sleep 5 :: t1), 1%nat.
      rewrite closes_step, set_outputs_step by done.
      repeat split; try done; cbn; lia.
    + exists (SetOutput (caen_channel cfg) volt :: Sleep 5 :: t1), 1%nat.
      rewrite closes_step, set_outputs_step by done.
      repeat split; try done; cbn; lia.
Qed.

End RunTraces.

Section RunOutcomes.
Import Py Daq Run.
Context {F : Type} {fo : FloatOps F}.
Variable env : Env.
Variable cfg : Config.
Implicit Types (s : State F) (fuel : nat) (pat volt : string) (t : list Command).

Lemma poll_while_not_raised pat fuel s (e : Exn) s' :
  poll_while env cfg pat fuel s <> Raised e s'.
Proof.
  revert s. induction fuel as [|fuel IH]; intros s; [done|].
  rewrite poll_while_S. cbv zeta. destruct (contains pat _); [apply IH | done].
Qed.

(** The trace [__init__] leaves before the sweep loop. *)
Lemma quiet_opening (status : string) :
  quiet ([CaenOpen (caen_ip cfg); ScopeOpen (scope_ip cfg);
          StatusCheck (caen_channel cfg)]
         ++ (if contains "ON" status then []
             else [EnableOutput (caen_channel cfg) true])).
Proof. by destruct (contains "ON" status). Qed.

(** X10. There is no [try]/[finally]: when [__init__] ends with an
    exception, the output was last set to one of the voltages of the list
    (the first [k] were set, in order, [k >= 1]) and neither client has been
    closed. *)
Theorem failed_run_leaves_output_set fuel s (e : Exn) s' :
  init env cfg fuel s = Raised e s' ->
  exists t (k : nat),
    trace s' = trace s ++ t
    /\ closes t = []
    /\ (1 <= k <= length (volt_list cfg))%nat
    /\ set_outputs t = take k (volt_list cfg).
Proof.
  rewrite init_eq. cbv zeta.
  set (s0 := mkState _ _ _ _ _ _ _).
  destruct (sweep_trace env cfg fuel (volt_list cfg) s0)
    as (t & k & Htrace & Hcloses & Houts & Hk & Hnot).
  destruct (sweep env cfg fuel (volt_list cfg) s0) as [[] s1|e1 s1|s1] eqn:Hsweep;
    cbn [final_state] in Htrace.
  - rewrite shutdown_eq.
    destruct (poll_while env cfg "RAMP DOWN" fuel _) as [[] s2|e2 s2|s2] eqn:Hpoll;
      try discriminate.
    by apply poll_while_not_raised in Hpoll.
  - intros [= -> ->].
    destruct (quiet_opening (status_reply env (status_checks s))) as [Hopen1 Hopen2].
    subst s0. cbn [trace] in Htrace. rewrite <- app_assoc in Htrace.
    eexists _, k. split; [exact Htrace|].
    rewrite closes_app, set_outputs_app, Hopen1, Hopen2, Hcloses, Houts.
    repeat split; try done. apply Hnot. intros s2. discriminate.
  - discriminate.
Qed.

(** X11. When [__init__] returns, the voltages it has set are the first
    [k] of the list, in order and without a gap, followed by ["0"], and the
    two clients have been closed once, by the last two calls of the run. *)
Theorem completed_run_closes_once fuel s s' :
  init env cfg fuel s = Done tt s' ->
  exists t (k : nat),
    trace s' = trace s ++ t ++ [ScopeClose; CaenClose]
    /\ closes t = []
    /\ (k <= length (volt_list cfg))%nat
    /\ set_outputs t = take k (volt_list cfg) ++ ["0"].
Proof.
  rewrite init_eq. cbv zeta.
  set (s0 := mkState _ _ _ _ _ _ _).
  destruct (sweep_trace env cfg fuel (volt_list cfg) s0)
    as (t & k & Htrace & Hcloses & Houts & Hk & _).
  destruct (sweep env cfg fuel (volt_list cfg) s0) as [[] s1|e1 s1|s1];
    cbn [final_state] in Htrace; try discriminate.
  rewrite shutdown_eq.
  set (s1' := mkState _ _ _ _ _ _ _).
  destruct (poll_while_trace env cfg "RAMP DOWN" fuel s1') as [j Hpoll].
  destruct (poll_while env cfg "RAMP DOWN" fuel s1') as [[] s2|e2 s2|s2];
    cbn [final_state] in Hpoll; try discriminate.
  intros [= <-]. cbn [trace].
  destruct (quiet_opening (status_reply env (status_checks s))) as [Hopen1 Hopen2].
  destruct (quiet_status_checks j (caen_channel cfg)) as [Hpoll1 Hpoll2].
  subst s0 s1'. cbn [trace] in *.
  set (o := [CaenOpen (caen_ip cfg); ScopeOpen (scope_ip cfg);
             StatusCheck (caen_channel cfg)]
            ++ (if contains "ON" (status_reply env (status_checks s)) then []
                else [EnableOutput (caen_channel cfg) true])) in *.
  exists ((o ++ t) ++ SetOutput (caen_channel cfg) "0"
                      :: replicate j (StatusCheck (caen_channel cfg))), k.
  split; [by rewrite Hpoll, Htrace, <- !app_assoc|].
  rewrite (closes_app (o ++ t)), (closes_app o), (set_outputs_app (o ++ t)),
    (set_outputs_app o), Hopen1, Hopen2, Hcloses, Houts.
  change (closes (SetOutput (caen_channel cfg) "0"
                  :: replicate j (StatusCheck (caen_channel cfg))))
    with (closes (replicate j (StatusCheck (caen_channel cfg)))).
  change (set_outputs (SetOutput (caen_channel cfg) "0"
                       :: replicate j (StatusCheck (caen_channel cfg))))
    with ("0" :: set_outputs (replicate j (StatusCheck (caen_channel cfg)))).
  by rewrite Hpoll1, Hpoll2.
Qed.

(** X12. The stop queue is not looked at during a ramp wait. Once a
    step has started, a supply that keeps reporting [RAMP UP] holds the run in
    the poll for any amount of fuel, whenever the stop signal is posted: the
    queue has been consulted once, before the step, and only status checks
    follow the [set_output]. *)
Theorem stop_cannot_interrupt_ramp fuel volt (rest : list string) s :
  posted env (stop_checks s) = false ->
  (forall n : nat,
     contains "RAMP UP" (status_reply env (status_checks s + n)) = true) ->
  exists s',
    sweep env cfg fuel (volt :: rest) s = Polling s'
    /\ stop_checks s' = S (stop_checks s)
    /\ trace s' = trace s ++ [SetOutput (caen_channel cfg) volt; Sleep 5]
                    ++ replicate fuel (StatusCheck (caen_channel cfg)).
Proof.
  intros Hposted Hramp. rewrite sweep_cons. cbv zeta. rewrite Hposted, step_eq.
  rewrite poll_while_stuck by (intros; apply Hramp).
  eexists. split; [reflexivity|]. cbn [stop_checks trace]. split; [done|].
  by rewrite <- app_assoc.
Qed.

(** *** Captures that run to their end, or fail *)

(** A capture of [n] events during which no stop signal is seen. *)
Lemma get_events_loop_full (evs : list (Event F)) s :
  (forall i : nat, (i < length evs)%nat -> posted env (stop_checks s + i) = false) ->
  (forall (i : nat) (ev : Event F), evs !! i = Some ev ->
     Parser.convert_to_vector (dt s)
       (query_reply env (queries s + i) (command_payload (active_channels cfg)))
     = Ok ev) ->
  get_events_loop env cfg (length evs) s
  = Done tt (mkState (list_events s ++ evs) (dt s) (files s)
               (trace s ++ replicate (length evs)
                             (Query (command_payload (active_channels cfg))))
               (status_checks s) (queries s + length evs)
               (stop_checks s + length evs)).
Proof.
  revert s. induction evs as [|ev evs IH]; intros s Hstop Hparse; cbn [length].
  - cbn. rewrite !app_nil_r, !Nat.add_0_r. by destruct s.
  - rewrite get_events_loop_S. cbv zeta.
    specialize (Hstop 0%nat) as Hfirst. rewrite Nat.add_0_r in Hfirst.
    rewrite Hfirst by (cbn; lia).
    specialize (Hparse 0%nat ev eq_refl) as Hev. rewrite Nat.add_0_r in Hev.
    rewrite Hev.
    rewrite IH; cbn [list_events dt files trace status_checks queries stop_checks].
    + rewrite <- !app_assoc. cbn [replicate app]. do 2 f_equal; lia.
    + intros i Hi. replace (S (stop_checks s) + i)%nat
        with (stop_checks s + S i)%nat by lia. apply Hstop. cbn. lia.
    + intros i ev' Hev'. replace (S (queries s) + i)%nat
        with (queries s + S i)%nat by lia. by apply Hparse.
Qed.

(** X13. When no stop signal is seen and every reply parses,
    [get_events] appends exactly [num_events] events, one for each of its
    [num_events] queries, which all carry the same command. *)
Theorem capture_complete (evs : list (Event F)) s :
  length evs = Z.to_nat (num_events cfg) ->
  (forall i : nat, (i < length evs)%nat -> posted env (stop_checks s + i) = false) ->
  (forall (i : nat) (ev : Event F), evs !! i = Some ev ->
     Parser.convert_to_vector (dt s)
       (query_reply env (queries s + i) (command_payload (active_channels cfg)))
     = Ok ev) ->
  get_events env cfg s
  = Done tt (mkState (list_events s ++ evs) (dt s) (files s)
               (trace s ++ replicate (length evs)
                             (Query (command_payload (active_channels cfg))))
               (status_checks s) (queries s + length evs)
               (stop_checks s + length evs)).
Proof.
  intros Hlen Hstop Hparse. unfold get_events. rewrite <- Hlen.
  by apply get_events_loop_full.
Qed.

(** A capture whose reply number [length evs] does not parse. *)
Lemma get_events_loop_raises (evs : list (Event F)) (n : nat) (e : Exn) s :
  (length evs < n)%nat ->
  (forall i : nat, (i <= length evs)%nat -> posted env (stop_checks s + i) = false) ->
  (forall (i : nat) (ev : Event F), evs !! i = Some ev ->
     Parser.convert_to_vector (dt s)
       (query_reply env (queries s + i) (command_payload (active_channels cfg)))
     = Ok ev) ->
  Parser.convert_to_vector (dt s)
    (query_reply env (queries s + length evs) (command_payload (active_channels cfg)))
  = Raise e ->
  get_events_loop env cfg n s
  = Raised e (mkState (list_events s ++ evs) (dt s) (files s)
                (trace s ++ replicate (S (length evs))
                              (Query (command_payload (active_channels cfg))))
                (status_checks s) (queries s + S (length evs))
                (stop_checks s + S (length evs))).
Proof.
  revert n s. induction evs as [|ev evs IH]; intros [|n] s Hlen Hstop Hparse Hfail;
    cbn [length] in *; try lia.
  - rewrite get_events_loop_S. cbv zeta.
    specialize (Hstop 0%nat) as Hfirst. rewrite Nat.add_0_r in Hfirst.
    rewrite Hfirst by lia. rewrite Nat.add_0_r in Hfail. rewrite Hfail.
    cbn [replicate]. rewrite app_nil_r. do 2 f_equal; lia.
  - rewrite get_events_loop_S. cbv zeta.
    specialize (Hstop 0%nat) as Hfirst. rewrite Nat.add_0_r in Hfirst.
    rewrite Hfirst by lia.
    specialize (Hparse 0%nat ev eq_refl) as Hev. rewrite Nat.add_0_r in Hev.
    rewrite Hev.
    rewrite (IH n); cbn [list_events dt files trace status_checks queries stop_checks].
    + rewrite <- !app_assoc. cbn [replicate app]. do 2 f_equal; lia.
    + lia.
    + intros i Hi. replace (S (stop_checks s) + i)%nat
        with (stop_checks s + S i)%nat by lia. apply Hstop. lia.
    + intros i ev' Hev'. replace (S (queries s) + i)%nat
        with (queries s + S i)%nat by lia. by apply Hparse.
    + by replace (S (queries s) + length evs)%nat
        with (queries s + S (length evs))%nat by lia.
Qed.

(** X14. When a reply of a capture does not parse, the step ends with
    the parser's exception before the dump: the events captured before it
    stay in the log, but no file is written for this voltage, and the files
    keep the content they had. *)
Theorem capture_failure_skips_dump fuel volt s (j : nat) (d : F)
    (evs : list (Event F)) (e : Exn) :
  (j < fuel)%nat ->
  (forall i : nat, (i < j)%nat ->
     contains "RAMP UP" (status_reply env (status_checks s + i)) = true) ->
  contains "RAMP UP" (status_reply env (status_checks s + j)) = false ->
  read_timebase (query_reply env (queries s) timebase_query) = Ok d ->
  (length evs < Z.to_nat (num_events cfg))%nat ->
  (forall i : nat, (i <= length evs)%nat -> posted env (stop_checks s + i) = false) ->
  (forall (i : nat) (ev : Event F), evs !! i = Some ev ->
     Parser.convert_to_vector (NFloat d)
       (query_reply env (queries s + 1 + i) (command_payload (active_channels cfg)))
     = Ok ev) ->
  Parser.convert_to_vector (NFloat d)
    (query_reply env (queries s + 1 + length evs)
       (command_payload (active_channels cfg)))
  = Raise e ->
  exists s',
    step env cfg fuel volt s = Raised e s'
    /\ list_events s' = list_events s ++ evs
    /\ files s' = files s
    /\ dt s' = NFloat d.
Proof.
  intros Hfuel Hramp Hclear Htimebase Hlen Hstop Hparse Hfail.
  rewrite step_eq, (poll_while_clears _ _ _ j) by done.
  rewrite get_timebase_eq. cbv zeta.
  cbn [list_events dt files trace status_checks queries stop_checks].
  rewrite Htimebase. unfold get_events.
  rewrite (get_events_loop_raises evs _ e);
    cbn [list_events dt files trace status_checks queries stop_checks]; try done.
  - by eexists.
  - intros i ev Hev. replace (S (queries s) + i)%nat
      with (queries s + 1 + i)%nat by lia. by apply Hparse.
  - by replace (S (queries s) + length evs)%nat
      with (queries s + 1 + length evs)%nat by lia.
Qed.

End RunOutcomes.

(** *** A run that nothing disturbs *)

Section FullRun.
Import Py Daq Run.
Context {F : Type} {fo : FloatOps F}.
Variable env : Env.
Variable cfg : Config.
Implicit Types (s : State F) (fuel : nat) (volt : string) (t : list Command).

Hypothesis never_stopped : stop_posted_at env = None.
Hypothesis never_ramping_up :
  forall n : nat, contains "RAMP UP" (status_reply env n) = false.
Hypothesis never_ramping_down :
  forall n : nat, contains "RAMP DOWN" (status_reply env n) = false.
Hypothesis timebase_parses :
  forall n : nat, exists d : F,
    read_timebase (query_reply env n timebase_query) = Ok d.
Hypothesis replies_parse :
  forall (n : nat) (dt : Num F), exists ev : Event F,
    Parser.convert_to_vector dt
      (query_reply env n (command_payload (active_channels cfg))) = Ok ev.






End FullRun.

(** ** The timebase reply *)

Section Timebase.
Import Py Daq View.
Context {F : Type} {fo : FloatOps F}.

Lemma string_cons_app (a : ascii) (x y : string) :
  String a x +:+ y = String a (x +:+ y).
Proof. reflexivity. Qed.

Lemma split_no_sep (c : ascii) (x : string) :
  count_char c x = 0%nat -> split c x = [x].
Proof.
  induction x as [|a x IH]; [done|]. cbn.
  destruct (Ascii.eqb a c); [done|]. intros Hx. by rewrite IH.
Qed.

Lemma split_app_sep (c : ascii) (x y : string) :
  count_char c x = 0%nat -> split c (x +:+ String c y) = x :: split c y.
Proof.
  induction x as [|a x IH].
  - intros _. change (EmptyString +:+ String c y) with (String c y).
    cbn. by rewrite Ascii.eqb_refl.
  - rewrite string_cons_app. cbn.
    destruct (Ascii.eqb a c); [done|]. intros Hx. by rewrite IH.
Qed.

Lemma length_split (c : ascii) (s : string) :
  length (split c s) = S (count_char c s).
Proof.
  induction s as [|a s IH]; [done|]. cbn.
  destruct (Ascii.eqb a c); cbn; [by rewrite IH|].
  destruct (split c s); cbn in *; lia.
Qed.

Lemma count_char_app (c : ascii) (x y : string) :
  count_char c (x +:+ y) = (count_char c x + count_char c y)%nat.
Proof.
  induction x as [|a x IH]; [done|]. rewrite string_cons_app. cbn.
  destruct (Ascii.eqb a c); cbn; by rewrite IH.
Qed.

(** X16. [get_timebase] reads the second word of the third field: in a
    reply [a:b:w0 w1] or [a:b:w0 w1 rest], with no colon in any part and no
    space in [w0] and [w1], the timebase is [float(w1)], and a [w1] that is
    not a number is a [ValueError]. *)
Theorem timebase_is_second_word (a b w0 w1 : string) (rest : option string) :
  count_char ":" a = 0%nat -> count_char ":" b = 0%nat ->
  count_char ":" w0 = 0%nat -> count_char ":" w1 = 0%nat ->
  count_char ":" (default EmptyString rest) = 0%nat ->
  count_char " " w0 = 0%nat -> count_char " " w1 = 0%nat ->
  read_timebase
    (Some (a +:+ ":" +:+ b +:+ ":" +:+ w0 +:+ " " +:+ w1
           +:+ match rest with Some r => " " +:+ r | None => EmptyString end))
  = match float_of_str w1 with
    | Some d => Ok d
    | None => Raise ValueError
    end.
Proof.
  intros Ha Hb Hw0 Hw1 Hrest Hs0 Hs1. unfold read_timebase.
  change (a +:+ ":" +:+ ?x) with (a +:+ String ":" x).
  rewrite (split_app_sep ":" a) by done.
  change (b +:+ ":" +:+ ?x) with (b +:+ String ":" x).
  rewrite (split_app_sep ":" b) by done.
  rewrite split_no_sep.
  - cbn [getitem lookup list_lookup mbind res_bind bind Py.bind].
    change (w0 +:+ " " +:+ ?x) with (w0 +:+ String " " x).
    rewrite (split_app_sep " " w0) by done.
    destruct rest as [r|].
    + change (w1 +:+ " " +:+ r) with (w1 +:+ String " " r).
      rewrite (split_app_sep " " w1) by done. cbn. by destruct (float_of_str w1).
    + rewrite string_app_nil_r, split_no_sep by done. cbn.
      by destruct (float_of_str w1).
  - rewrite !count_char_app, Hw0, Hw1. destruct rest as [r|]; cbn in *.
    + change (" " +:+ r) with (String " " r). cbn. by rewrite Hrest.
    + done.
Qed.

(** X17. A timebase reply with fewer than two colons has no third field:
    [get_timebase] raises [IndexError] after its query, and the timebase, the
    log and the files stay as they were. *)
Theorem timebase_without_third_field (env : Env) (s : State F) (raw : string) :
  query_reply env (queries s) timebase_query = Some raw ->
  (count_char ":" raw < 2)%nat ->
  get_timebase env s
  = Raised IndexError
      (mkState (list_events s) (dt s) (files s) (trace s ++ [Query timebase_query])
         (status_checks s) (S (queries s)) (stop_checks s)).
Proof.
  intros Hreply Hcount. rewrite get_timebase_eq. cbv zeta. rewrite Hreply.
  unfold read_timebase, getitem.
  rewrite (lookup_ge_None_2 (split ":" raw) 2); [done|].
  rewrite length_split. lia.
Qed.

End Timebase.

(** ** The files of a sweep *)

Section Files.
Import Py Daq.
Context {F : Type} {fo : FloatOps F}.
Variable env : Env.
Variable cfg : Config.

Lemma string_app_inv_head (a x y : string) : a +:+ x = a +:+ y -> x = y.
Proof.
  induction a as [|c a IH]; [done|]. rewrite !string_cons_app.
  intros [= Heq]. by apply IH.
Qed.

Lemma string_length_app (x y : string) :
  String.length (x +:+ y) = (String.length x + String.length y)%nat.
Proof.
  induction x as [|c x IH]; [done|]. rewrite string_cons_app. cbn. by rewrite IH.
Qed.

Lemma string_app_inv_tail (x y z : string) : x +:+ z = y +:+ z -> x = y.
Proof.
  revert y. induction x as [|c x IH]; intros [|d y] Heq; try done.
  - apply (f_equal String.length) in Heq.
    change (String.length z = String.length (String d (y +:+ z))) in Heq.
    cbn [String.length] in Heq. rewrite string_length_app in Heq. lia.
  - apply (f_equal String.length) in Heq.
    change (String.length (String c (x +:+ z)) = String.length z) in Heq.
    cbn [String.length] in Heq. rewrite string_length_app in Heq. lia.
  - rewrite !string_cons_app in Heq. injection Heq as -> Heq. f_equal. by apply IH.
Qed.

(** Two voltages with the same file are the same voltage. *)
Lemma dump_path_inj (v1 v2 : string) : dump_path cfg v1 = dump_path cfg v2 -> v1 = v2.
Proof.
  unfold dump_path. intros Heq.
  apply string_app_inv_head in Heq.
  change ("_" +:+ ?x) with (String "_" x) in Heq. injection Heq as Heq.
  by apply string_app_inv_tail in Heq.
Qed.

(** However a step ends, it has touched no file but its own. *)
Lemma step_files fuel (volt p : string) (s : State F) :
  p <> dump_path cfg volt ->
  files (final_state (step env cfg fuel volt s)) !! p = files s !! p.
Proof.
  intros Hp. rewrite step_eq.
  destruct (poll_while_log env cfg "RAMP UP" fuel
              (mkState (list_events s) (dt s) (files s)
                 (trace s ++ [SetOutput (caen_channel cfg) volt; Sleep 5])
                 (status_checks s) (queries s) (stop_checks s))) as [_ Hfiles1].
  destruct (poll_while env cfg "RAMP UP" fuel _) as [[] s1|e s1|s1];
    cbn [final_state files] in Hfiles1;
    [|by cbn [final_state]; rewrite Hfiles1..].
  rewrite get_timebase_eq. cbv zeta.
  destruct (read_timebase _) as [d|e];
    [|by cbn [final_state files]; rewrite Hfiles1].
  unfold get_events.
  destruct (get_events_loop_log env cfg (Z.to_nat (num_events cfg))
              (mkState (list_events s1) (NFloat d) (files s1)
                 (trace s1 ++ [Query timebase_query])
                 (status_checks s1) (S (queries s1)) (stop_checks s1)))
    as (evs & _ & Hfiles3).
  destruct (get_events_loop env cfg _ _) as [[] s3|e s3|s3];
    cbn [final_state files] in Hfiles3;
    [|by cbn [final_state]; rewrite Hfiles3, Hfiles1..].
  unfold dump_data. cbn [final_state files].
  rewrite lookup_insert_ne by done. by rewrite Hfiles3, Hfiles1.
Qed.

(** X18. Different voltages have different files, so the step of one
    voltage, however it ends, leaves the file of every other voltage as it
    was: a later step never rewrites an earlier dump unless the voltage is
    repeated in the list. *)
Theorem other_voltage_file_untouched fuel (v1 v2 : string) (s : State F) :
  v1 <> v2 ->
  files (final_state (step env cfg fuel v2 s)) !! dump_path cfg v1
  = files s !! dump_path cfg v1.
Proof.
  intros Hne. apply step_files. intros Heq. by apply dump_path_inj in Heq.
Qed.

End Files.

Section BlankEvents.
Import Py Parser Writer.
Context {F : Type} {fo : FloatOps F}.

Lemma write_events_from_cons (n : nat) (ev : Event F) (events : list (Event F)) :
  write_events_from n (ev :: events)
  = write_event EmptyString (n, ev) +:+ write_events_from (S n) events.
Proof.
  unfold write_events_from. rewrite imap_cons. cbn [fold_left].
  rewrite Nat.add_0_r.
  rewrite (fold_left_out write_event write_event_out).
  do 2 f_equal. apply imap_ext. intros i x _. cbn. f_equal. lia.
Qed.

(** X19. A reply without a marker and without a number is logged as an
    event that leaves no text in a dump: the events around it are written as
    if it were not there, except that it takes up an event number. *)
Theorem numberless_reply_leaves_no_text (dt : Num F) (values : string) :
  Forall plain (tokens values) ->
  voltages (tokens values) = [] ->
  exists ev : Event F,
    convert_to_vector dt (Some values) = Ok ev
    /\ forall l1 l2 : list (Event F),
         write_events (l1 ++ ev :: l2)
         = write_events l1 +:+ write_events_from (S (length l1)) l2.
Proof.
  intros Hplain Hnone. rewrite convert_plain, Hnone by done.
  eexists. split; [reflexivity|]. intros l1 l2.
  by rewrite write_events_app, write_events_from_cons.
Qed.

End BlankEvents.

(** ** The console monitor *)

Section Monitor.
Import Py Ui Main.

Lemma contains_s_cons (a : ascii) (rest : string) :
  contains "s" (String a rest) = Ascii.eqb a "s" || contains "s" rest.
Proof.
  destruct a as [[] [] [] [] [] [] [] []]; cbn; try reflexivity.
  by destruct rest.
Qed.

Lemma lower_is_s (a : ascii) :
  Ascii.eqb (lower_char a) "s" = Ascii.eqb a "s" || Ascii.eqb a "S".
Proof. by destruct a as [[] [] [] [] [] [] [] []]. Qed.

(** The test of the loop holds of the commands that have the letter. *)
Lemma contains_s_lower (command : string) :
  contains "s" (str_lower command) = has_s command.
Proof.
  induction command as [|a rest IH]; [done|].
  cbn [str_lower has_s]. by rewrite contains_s_cons, lower_is_s, IH.
Qed.

Lemma prompt_loop_stops (pre post : list string) (command : string) (asked : nat) :
  Forall (fun c => has_s c = false) pre ->
  has_s command = true ->
  prompt_loop (pre ++ command :: post) asked = (Some post, (asked + length pre + 1)%nat).
Proof.
  intros Hpre Hcommand. revert asked.
  induction Hpre as [|c pre Hc _ IH]; intros asked; cbn [prompt_loop app length].
  - rewrite contains_s_lower, Hcommand. f_equal. lia.
  - rewrite contains_s_lower, Hc, IH. f_equal. lia.
Qed.

Lemma prompt_loop_runs_out (lines : list string) (asked : nat) :
  Forall (fun c => has_s c = false) lines ->
  prompt_loop lines asked = (None, (asked + length lines + 1)%nat).
Proof.
  intros Hlines. revert asked.
  induction Hlines as [|c lines Hc _ IH]; intros asked; cbn [prompt_loop length].
  - f_equal. lia.
  - rewrite contains_s_lower, Hc, IH. f_equal. lia.
Qed.

(** X20. The monitor posts once, and to the module-level queue: it
    prompts until a command has the letter [s] in either case, reads nothing
    after that command, and puts one ["STOP"] at the end of [queue_stop],
    whatever queue it was given. The queue it was given receives the signal
    exactly when it is [queue_stop] itself, which is the case in the one call
    of the script; any other queue is left as it was. *)
Theorem ui_handler_posts_once (interrupt_queue : QueueRef) (w : World)
    (pre post : list string) (command : string) :
  stdin w = pre ++ command :: post ->
  Forall (fun c => has_s c = false) pre ->
  has_s command = true ->
  ui_handler interrupt_queue w
  = Returned (mkWorld post (prompts w + length pre + 1) (slept w + 10)
                (queue_stop w ++ ["STOP"]) (other_queues w))
  /\ monitor w
     = Returned (mkWorld post (prompts w + length pre + 1) (slept w + 10)
                   (queue_stop w ++ ["STOP"]) (other_queues w))
  /\ forall w' : World,
       ui_handler interrupt_queue w = Returned w' ->
       contents w' interrupt_queue
       = match interrupt_queue with
         | QueueStop => Some (queue_stop w ++ ["STOP"])
         | OtherQueue n => contents w (OtherQueue n)
         end.
Proof.
  intros Hstdin Hpre Hcommand. unfold monitor, ui_handler.
  rewrite Hstdin, prompt_loop_stops by done.
  split; [done|]. split; [done|]. intros w' [= <-]. by destruct interrupt_queue.
Qed.

(** X21. Without a command that has the letter [s], the monitor never
    posts, whatever queue it was given: it prompts once for every line and
    once more, ends with the exception of [input()] at the end of the input,
    and every queue is as it was. *)
Theorem ui_handler_without_s (interrupt_queue : QueueRef) (w : World) :
  Forall (fun c => has_s c = false) (stdin w) ->
  ui_handler interrupt_queue w
  = EndOfInput (mkWorld [] (prompts w + length (stdin w) + 1) (slept w + 10)
                  (queue_stop w) (other_queues w)).
Proof. intros Hstdin. unfold ui_handler. by rewrite prompt_loop_runs_out. Qed.

End Monitor.

(** ** The capture query and the voltage list *)

Section Script.
Import Py Daq View Run Main.

Lemma command_payload_snoc (channels : list bool) (b : bool) :
  command_payload (channels ++ [b])
  = command_payload channels
    +:+ (if b then query_part (length channels) else EmptyString).
Proof.
  unfold command_payload, enumerate. rewrite imap_app, fold_left_app.
  cbn [imap fold_left compose]. rewrite Nat.add_0_r.
  destruct b; [reflexivity | by rewrite string_app_nil_r].
Qed.

Lemma concat_empty_snoc (l : list string) (x : string) :
  String.concat EmptyString (l ++ [x]) = String.concat EmptyString l +:+ x.
Proof.
  induction l as [|y l IH]; [done|].
  change ((y :: l) ++ [x]) with (y :: (l ++ [x])).
  destruct l as [|z l].
  - cbn [app String.concat]. reflexivity.
  - change (String.concat EmptyString (y :: (z :: l) ++ [x]))
      with (y +:+ EmptyString +:+ String.concat EmptyString ((z :: l) ++ [x])).
    rewrite IH.
    change (String.concat EmptyString (y :: z :: l))
      with (y +:+ EmptyString +:+ String.concat EmptyString (z :: l)).
    change (EmptyString +:+ ?u) with u. by rewrite string_app_assoc.
Qed.

Lemma filter_active_snoc (channels : list bool) (b : bool) (l : list nat) :
  Forall (fun i => (i < length channels)%nat) l ->
  filter (fun i : nat => (channels ++ [b]) !! i = Some true) l
  = filter (fun i : nat => channels !! i = Some true) l.
Proof.
  induction 1 as [|i l Hi _ IH]; [done|].
  rewrite !filter_cons, IH, lookup_app_l by done. reflexivity.
Qed.

(** X22. For a mask of any length the capture query is the
    concatenation of [C<i>:INSPECT? SIMPLE;] over the zero-based indices [i]
    of the active channels, in increasing order; a mask without an active
    channel gives the empty query. *)
Theorem command_payload_any_mask (channels : list bool) :
  command_payload channels
  = String.concat EmptyString
      (map query_part
         (filter (fun i : nat => channels !! i = Some true) (seq 0 (length channels)))).
Proof.
  induction channels as [|b channels IH] using rev_ind; [done|].
  rewrite command_payload_snoc, IH, length_app, Nat.add_1_r, seq_S, filter_app.
  rewrite filter_active_snoc
    by (apply Forall_forall; intros i Hi%elem_of_seq; lia).
  cbn [Nat.add]. rewrite filter_cons, filter_nil.
  rewrite lookup_app_r, Nat.sub_diag by done. cbn [lookup list_lookup].
  destruct b.
  - rewrite decide_True by done. rewrite map_app. cbn [map]. by rewrite concat_empty_snoc.
  - rewrite decide_False by done. by rewrite app_nil_r, string_app_nil_r.
Qed.

Lemma split_cons (c : ascii) (s : string) :
  exists w ws, split c s = w :: ws.
Proof.
  induction s as [|a s (w & ws & IH)]; [by eexists _, _|]. cbn.
  destruct (Ascii.eqb a c); [by eexists _, _|]. rewrite IH. by eexists _, _.
Qed.

Lemma concat_split (c : ascii) (s : string) :
  String.concat (String c EmptyString) (split c s) = s.
Proof.
  induction s as [|a s IH]; [done|]. cbn [split].
  destruct (Ascii.eqb_spec a c) as [->|Hne].
  - destruct (split_cons c s) as (w & ws & Hs). rewrite Hs in *.
    change (String.concat (String c EmptyString) (EmptyString :: w :: ws))
      with (String c (String.concat (String c EmptyString) (w :: ws))).
    by rewrite IH.
  - destruct (split_cons c s) as (w & ws & Hs). rewrite Hs in *.
    rewrite <- IH. by destruct ws.
Qed.

Lemma split_fields (c : ascii) (s : string) :
  Forall (fun w => count_char c w = 0%nat) (split c s).
Proof.
  induction s as [|a s IH]; [by repeat constructor|]. cbn [split].
  destruct (Ascii.eqb a c) eqn:Hac; [by constructor|].
  destruct (split_cons c s) as (w & ws & Hs). rewrite Hs in *.
  inversion IH as [|? ? Hw Hws]; subst. constructor; [|done].
  cbn. by rewrite Hac.
Qed.

(** X23. The voltage list is the configured string cut at its commas
    and nothing else: it has one entry more than there are commas, so it is
    never empty, no entry is trimmed or dropped, and joining the entries with
    commas gives the configured string back. *)
Theorem configured_volts_kept (volts : string) :
  length (volt_list_of volts) = S (count_char "," volts)
  /\ String.concat "," (volt_list_of volts) = volts
  /\ Forall (fun volt => count_char "," volt = 0%nat) (volt_list_of volts).
Proof.
  unfold volt_list_of. split; [apply length_split|].
  split; [apply concat_split | apply split_fields].
Qed.

End Script.

(** ** The further properties on the example data *)

Section FurtherExamples.
Import Py Parser Daq Binary64 Demo View Run Cases.
Local Existing Instance binary64.

Lemma convert_four_slots_witness : length event_short = 4%nat.
Proof.
  apply (convert_four_slots dt_ns (Some response_short) event_short).
  vm_compute. reflexivity.
Defined.

Lemma convert_sample_times_witness :
  NFloat 0x1.12e0be826d695p-30%float = num_mul_int dt_ns (Z.of_nat 1).
Proof.
  apply (convert_sample_times dt_ns (Some response_1_3) event_1_3 0 1
           [(NFloat 0%float, 1.5%float);
            (NFloat 0x1.12e0be826d695p-30%float, 0x1.999999999999ap+0%float)]
           (NFloat 0x1.12e0be826d695p-30%float) 0x1.999999999999ap+0%float).
  - vm_compute. reflexivity.
  - reflexivity.
  - reflexivity.
Defined.

Lemma marker_without_digit_raises_witness :
  (exists e : Exn, convert_to_vector dt_ns (Some "1.5 C:INSPECT 2") = Raise e)
  /\ (Forall plain ["1.5"] ->
      convert_to_vector dt_ns (Some "1.5 C:INSPECT 2") = Raise ValueError).
Proof.
  apply (marker_without_digit_raises dt_ns "1.5 C:INSPECT 2" ["1.5"] ["2"] "C:INSPECT");
    reflexivity.
Defined.

Lemma channel_above_four_raises_witness :
  convert_to_vector dt_ns (Some "C1:INSPECT 1.5 C5:INSPECT 2") = Raise IndexError.
Proof.
  apply (channel_above_four_raises dt_ns "C1:INSPECT 1.5 C5:INSPECT 2"
           ["C1:INSPECT"; "1.5"] ["2"] "C5:INSPECT" 5
           (mkScan (replicate 4 None) 0 1 [(NFloat 0%float, 1.5%float)])).
  - reflexivity.
  - vm_compute. reflexivity.
  - split; reflexivity.
  - lia.
Defined.

Lemma entries_before_first_marker_witness :
  convert_to_vector dt_ns (Some "0.5 C2:INSPECT 1.5")
  = Ok (<[Z.to_nat (2 - 1) := Some (samples dt_ns (voltages ["0.5"] ++ voltages ["1.5"]))]>
          (replicate 4 None)).
Proof.
  apply (entries_before_first_marker dt_ns "0.5 C2:INSPECT 1.5" ["0.5"] ["1.5"]
           "C2:INSPECT" 2).
  - reflexivity.
  - repeat constructor.
  - repeat constructor.
  - split; reflexivity.
  - lia.
Defined.

Lemma channel_zero_marker_witness :
  convert_to_vector dt_ns (Some "C0:INSPECT 1.5 2.5")
  = Ok [None; None; None; Some (samples dt_ns (voltages ["1.5"; "2.5"]))].
Proof.
  apply (channel_zero_marker dt_ns "C0:INSPECT 1.5 2.5" "C0:INSPECT" ["1.5"; "2.5"]).
  - reflexivity.
  - split; reflexivity.
  - repeat constructor.
Defined.

Lemma repeated_channel_keeps_last_witness :
  convert_to_vector dt_ns (Some "C1:INSPECT 1.5 C1:INSPECT 2.5")
  = Ok (<[Z.to_nat (1 - 1) := Some (samples dt_ns (voltages ["2.5"]))]>
          (replicate 4 None)).
Proof.
  apply (repeated_channel_keeps_last dt_ns "C1:INSPECT 1.5 C1:INSPECT 2.5"
           "C1:INSPECT" "C1:INSPECT" ["1.5"] ["2.5"] 1).
  - reflexivity.
  - split; reflexivity.
  - split; reflexivity.
  - repeat constructor.
  - repeat constructor.
  - lia.
Defined.

Lemma failed_run_leaves_output_set_witness :
  exists (t : list Command) (k : nat),
    trace crashed = trace start ++ t
    /\ closes t = []
    /\ (1 <= k <= length (volt_list cfg))%nat
    /\ set_outputs t = take k (volt_list cfg).
Proof.
  apply (failed_run_leaves_output_set (mkEnv statuses no_fields None) cfg 5 start
           IndexError crashed).
  vm_compute. reflexivity.
Defined.

Lemma completed_run_closes_once_witness :
  exists (t : list Command) (k : nat),
    trace finished = trace start ++ t ++ [ScopeClose; CaenClose]
    /\ closes t = []
    /\ (k <= length (volt_list cfg))%nat
    /\ set_outputs t = take k (volt_list cfg) ++ ["0"].
Proof.
  apply (completed_run_closes_once (env statuses None) cfg 5 start finished).
  vm_compute. reflexivity.
Defined.

Lemma stop_cannot_interrupt_ramp_witness :
  exists s' : State float,
    sweep (env ramping (Some 1%nat)) cfg 7 ("100" :: ["200"]) opened = Polling s'
    /\ stop_checks s' = S (stop_checks opened)
    /\ trace s' = trace opened ++ [SetOutput (caen_channel cfg) "100"; Sleep 5]
                    ++ replicate 7 (StatusCheck (caen_channel cfg)).
Proof.
  apply (stop_cannot_interrupt_ramp (env ramping (Some 1%nat)) cfg 7 "100" ["200"] opened).
  - reflexivity.
  - intros n. reflexivity.
Defined.

Lemma capture_complete_witness :
  get_events (env steady None) cfg ready
  = Done tt (mkState (list_events ready ++ [event_1_3; event_short]) (dt ready)
               (files ready)
               (trace ready ++ replicate (length [event_1_3; event_short])
                                 (Query (command_payload (active_channels cfg))))
               (status_checks ready) (queries ready + length [event_1_3; event_short])
               (stop_checks ready + length [event_1_3; event_short])).
Proof.
  apply (capture_complete (env steady None) cfg [event_1_3; event_short] ready).
  - reflexivity.
  - intros i Hi. reflexivity.
  - intros [|[|i]] ev Hev; [| |discriminate];
      injection Hev as <-; vm_compute; reflexivity.
Defined.

Lemma capture_failure_skips_dump_witness :
  exists s' : State float,
    step (mkEnv steady replies_ch7 None) cfg 5 "100" opened = Raised IndexError s'
    /\ list_events s' = list_events opened ++ [event_short]
    /\ files s' = files opened
    /\ dt s' = NFloat 0x1.12e0be826d695p-30%float.
Proof.
  apply (capture_failure_skips_dump (mkEnv steady replies_ch7 None) cfg 5 "100" opened
           0 0x1.12e0be826d695p-30%float [event_short] IndexError).
  - lia.
  - intros i Hi. lia.
  - reflexivity.
  - vm_compute. reflexivity.
  - vm_compute. lia.
  - intros i Hi. reflexivity.
  - intros [|i] ev Hev; [|destruct i; discriminate].
    injection Hev as <-. vm_compute. reflexivity.
  - vm_compute. reflexivity.
Defined.


Lemma timebase_is_second_word_witness :
  read_timebase
    (Some ("C2" +:+ ":" +:+ "INSP HORIZ_INTERVAL " +:+ ":" +:+ "" +:+ " " +:+ "1e-09"
           +:+ match Some "s" with Some r => " " +:+ r | None => EmptyString end))
  = match float_of_str "1e-09" with
    | Some d => Ok d
    | None => Raise ValueError
    end.
Proof.
  apply (timebase_is_second_word "C2" "INSP HORIZ_INTERVAL " "" "1e-09" (Some "s"));
    reflexivity.
Defined.

Lemma timebase_without_third_field_witness :
  get_timebase (mkEnv statuses no_fields None) opened
  = Raised IndexError
      (mkState (list_events opened) (dt opened) (files opened)
         (trace opened ++ [Query timebase_query])
         (status_checks opened) (S (queries opened)) (stop_checks opened)).
Proof.
  apply (timebase_without_third_field (mkEnv statuses no_fields None) opened "ERR").
  - reflexivity.
  - vm_compute. lia.
Defined.

Lemma other_voltage_file_untouched_witness :
  files (final_state (step (env statuses None) cfg 5 "200" after_step1))
    !! dump_path cfg "100"
  = files after_step1 !! dump_path cfg "100".
Proof.
  apply (other_voltage_file_untouched (env statuses None) cfg 5 "100" "200" after_step1).
  discriminate.
Defined.

Lemma numberless_reply_leaves_no_text_witness :
  exists ev : Event float,
    convert_to_vector dt_ns (Some "ERR") = Ok ev
    /\ forall l1 l2 : list (Event float),
         Writer.write_events (l1 ++ ev :: l2)
         = Writer.write_events l1 +:+ Writer.write_events_from (S (length l1)) l2.
Proof.
  apply (numberless_reply_leaves_no_text dt_ns "ERR").
  - repeat constructor.
  - reflexivity.
Defined.

Lemma ui_handler_posts_once_witness :
  Ui.ui_handler Ui.QueueStop session
  = Ui.Returned (Ui.mkWorld ["later"] (Ui.prompts session + length ["help"] + 1)
                   (Ui.slept session + 10) (Ui.queue_stop session ++ ["STOP"])
                   (Ui.other_queues session))
  /\ Main.monitor session
     = Ui.Returned (Ui.mkWorld ["later"] (Ui.prompts session + length ["help"] + 1)
                      (Ui.slept session + 10) (Ui.queue_stop session ++ ["STOP"])
                      (Ui.other_queues session))
  /\ forall w' : Ui.World,
       Ui.ui_handler Ui.QueueStop session = Ui.Returned w' ->
       Ui.contents w' Ui.QueueStop
       = match Ui.QueueStop with
         | Ui.QueueStop => Some (Ui.queue_stop session ++ ["STOP"])
         | Ui.OtherQueue n => Ui.contents session (Ui.OtherQueue n)
         end.
Proof.
  apply (ui_handler_posts_once Ui.QueueStop session ["help"] ["later"] "Stop").
  - reflexivity.
  - repeat constructor.
  - reflexivity.
Defined.

Lemma ui_handler_without_s_witness :
  Ui.ui_handler Ui.QueueStop idle_session
  = Ui.EndOfInput (Ui.mkWorld [] (Ui.prompts idle_session + length (Ui.stdin idle_session) + 1)
                     (Ui.slept idle_session + 10) (Ui.queue_stop idle_session)
                     (Ui.other_queues idle_session)).
Proof.
  apply (ui_handler_without_s Ui.QueueStop idle_session).
  repeat constructor.
Defined.

End FurtherExamples.
